(** * TradingAgents: the IBKR data utilities and the data source manager

    A shallow embedding of [tradingagents/dataflows/ibkr_utils.py] and
    [tradingagents/dataflows/data_source_manager.py].

    Python code that raises, logs, mutates module globals and talks to
    the broker gateway is written in a state-and-exception monad over an
    explicit [World].  What the two modules import (the ib_async
    client, the clock, strptime/strftime, pandas, and the Finnhub
    provider of [finnhub_utils]) is an operation of the class
    [Externals]: the theorems hold for every behaviour of these.
    [await] is sequencing: one request runs at a time.  The wrapper
    [get_data_in_range_with_fallback], which only drives the event
    loop, is left out. *)

From Stdlib Require Import ZArith Ascii String List.
From stdpp Require Import base option list gmap strings pretty.

Local Open Scope string_scope.
Local Open Scope Z_scope.

(** ** Python values *)

(** [datetime]: the proleptic Gregorian day number of the date
    ([date.toordinal()]) and the microseconds elapsed since midnight. *)
Record datetime := mkDatetime { ordinal : Z; day_micros : Z }.

(** Payloads ([Any] in the type annotations).  [AOpaque] stands for a
    value the two modules only pass along (a float, an XML report, a
    library object). *)
#[warnings="-register-all"]
Inductive Any :=
  | ANone
  | ABool (b : bool)
  | AInt (z : Z)
  | AStr (s : string)
  | ATime (t : datetime)
  | AOpaque (n : N)
  | AList (l : list Any)
  | ADict (d : list (string * Any)).

(** [Dict[str, Any]], the result type of every fetch. *)
Abbreviation Result := (gmap string Any).

(** Truth value of a dict and of a list: non-empty. *)
Definition dict_truthy {V} (d : gmap string V) : bool :=
  negb (bool_decide (d = ∅)).

Definition list_truthy {A} (l : list A) : bool :=
  match l with [] => false | _ :: _ => true end.

(** Instances of [Exception]: the class and [str(e)].  Signals below
    [BaseException] that are not an [Exception] (KeyboardInterrupt,
    SystemExit, task cancellation) are not failures of a provider and
    are not represented. *)
Record exn := mkExn { exn_class : string; exn_str : string }.

Inductive Res (A : Type) :=
  | Ok (a : A)
  | Err (e : exn).
Arguments Ok {A} a.
Arguments Err {A} e.

(** ** The state-and-exception monad *)

Definition M (S A : Type) : Type := S → Res A * S.

Definition ret {S A} (a : A) : M S A := λ s, (Ok a, s).

Definition bind {S A B} (m : M S A) (k : A → M S B) : M S B :=
  λ s, match m s with
       | (Ok a, s') => k a s'
       | (Err e, s') => (Err e, s')
       end.

(** [raise e] *)
Definition raise {S A} (e : exn) : M S A := λ s, (Err e, s).

(** [try: m  except Exception as e: h e] *)
Definition try_except {S A} (m : M S A) (h : exn → M S A) : M S A :=
  λ s, match m s with
       | (Ok a, s') => (Ok a, s')
       | (Err e, s') => h e s'
       end.

Definition gets {S A} (f : S → A) : M S A := λ s, (Ok (f s), s).
Definition modify {S} (f : S → S) : M S unit := λ s, (Ok tt, f s).

#[global] Instance M_ret {S} : MRet (M S) := λ A, @ret S A.
#[global] Instance M_bind {S} : MBind (M S) := λ A B k m, @bind S A B m k.

(** ** The ib_async client *)

(** [Stock(ticker, exchange, "USD")] *)
Record Contract := mkContract {
  symbol : string; exchange : string; currency : string; conId : Z }.

Definition Stock (ticker exch cur : string) : Contract :=
  {| symbol := ticker; exchange := exch; currency := cur; conId := 0 |}.

Record ContractDetails := mkContractDetails {
  cd_contract : Contract;
  longName : Any; industry : Any; category : Any; subcategory : Any;
  timeZoneId : Any; tradingHours : Any; liquidHours : Any; evRule : Any;
  evMultiplier : Any; minTick : Any; orderTypes : Any;
  validExchanges : Any; underConId : Any; marketRuleIds : Any }.

Record NewsProvider := mkNewsProvider { code : string; np_name : string }.

(** One entry of the answer to [reqHistoricalNewsAsync]. *)
Record HistoricalNews := mkHistoricalNews {
  hn_time : datetime; hn_providerCode : Any; hn_articleId : Any;
  hn_headline : Any }.

(** One bar of [reqHistoricalDataAsync]; [bar_date] is what the client
    delivered in the [date] column, the other columns are kept as
    they are. *)
Record BarData := mkBarData { bar_date : Any; bar_rest : list (string * Any) }.

Record Ticker := mkTicker {
  tk_contract : Contract;
  bid : Any; ask : Any; last : Any; lastSize : Any; volume : Any;
  high : Any; low : Any; close : Any; halted : Any; bidSize : Any;
  askSize : Any; tk_time : Any }.

(** The calls the module makes on [self.ib], with their arguments. *)
Inductive IBRequest :=
  | connectAsync (host : string) (port clientId timeout : Z)
  | disconnect_ib
  | reqHistoricalDataAsync (c : Contract) (endDateTime : string)
      (durationStr barSizeSetting whatToShow : Any) (useRTH : bool)
      (formatDate : Z)
  | reqContractDetailsAsync (c : Contract)
  | reqNewsProvidersAsync
  | reqHistoricalNewsAsync (conId : Z) (providerCodes : string)
      (startDateTime endDateTime : datetime) (totalResults : Z)
  | reqFundamentalDataAsync (c : Contract) (reportType : string)
  | reqMktData (c : Contract) (genericTickList : string)
      (snapshot regulatorySnapshot : bool)
  | ticker_of (c : Contract).

(** What each call answers when it does not raise. *)
Definition IBAnswer (r : IBRequest) : Type :=
  match r with
  | connectAsync _ _ _ _ => unit
  | disconnect_ib => unit
  | reqHistoricalDataAsync _ _ _ _ _ _ _ => list BarData
  | reqContractDetailsAsync _ => list ContractDetails
  | reqNewsProvidersAsync => list NewsProvider
  | reqHistoricalNewsAsync _ _ _ _ _ => list HistoricalNews
  | reqFundamentalDataAsync _ _ => Any
  | reqMktData _ _ _ _ => unit
  | ticker_of _ => option Ticker
  end.

(** A pandas frame after [util.df]: its rows, in order. *)
Abbreviation DataFrame := (list BarData).

(** ** What lies outside the two modules *)

Class Externals := {
  (** the state of everything outside the process: the gateway, the
      clock, the files behind the Finnhub provider *)
  Ext : Type;
  (** a call on the [IB] client *)
  ib : ∀ r : IBRequest, Ext → Res (IBAnswer r) * Ext;
  (** [datetime.now()] *)
  datetime_now : Ext → datetime * Ext;
  (** [asyncio.sleep] *)
  asyncio_sleep : Z → Ext → Ext;
  (** entering [asyncio.run]: it refuses with an exception when an
      event loop is already running in the thread *)
  asyncio_run_enter : Ext → Res unit * Ext;
  (** [datetime.strptime(s, "%Y-%m-%d")]: a midnight, or ValueError *)
  strptime_ymd : string → Res datetime;
  (** [t.strftime("%Y-%m-%d")] *)
  strftime_ymd : datetime → string;
  (** [util.df(bars)]: a frame, or None *)
  util_df : list BarData → option DataFrame;
  (** one cell of [pd.to_datetime(col).dt.strftime('%Y-%m-%d')]: the
      formatted date, NaN ([None]) for a missing one, or an exception
      for a cell that is no date *)
  to_datetime_strftime : Any → Res (option string);
  (** [finnhub_utils.get_data_in_range] *)
  get_finnhub_data_in_range :
    string → string → string → string → string → option string →
    Ext → Res Result * Ext;
  (** [config.DATA_DIR] *)
  DATA_DIR : string
}.

(** ** Configuration, objects, events and the world *)

(** The configuration dict, restricted to the keys the two modules
    read; a key that is absent is [None]. *)
Record Config := mkConfig {
  cfg_data_source : option string;
  cfg_enable_fallback : option bool;
  cfg_ibkr_host : option string;
  cfg_ibkr_port : option Z;
  cfg_ibkr_client_id : option Z;
  cfg_ibkr_timeout : option Z }.

(** The fields of an [IBKRConnection]; the [IB] client it holds talks
    to the gateway, whose state is part of [Ext]. *)
Record IBKRConnection := mkIBKRConnection {
  conn_config : Config;
  conn_host : string;
  conn_port : Z;
  conn_client_id : Z;
  conn_timeout : Z;
  connected : bool }.

Definition set_connected (b : bool) (c : IBKRConnection) : IBKRConnection :=
  {| conn_config := conn_config c; conn_host := conn_host c;
     conn_port := conn_port c; conn_client_id := conn_client_id c;
     conn_timeout := conn_timeout c; connected := b |}.

Record DataSourceManager := mkDataSourceManager {
  mgr_config : Config;
  primary_source : string;
  enable_fallback : bool }.

Inductive Level := INFO | WARNING | ERROR.

(** The two providers. *)
Inductive Source := Ibkr | Finnhub.

#[global] Instance Source_eq_dec : EqDecision Source.
Proof. solve_decision. Defined.

(** The arguments of one fetch: [_get_ibkr_data] or [_get_finnhub_data]. *)
Inductive FetchCall :=
  | IbkrCall (ticker start_date end_date data_type : string)
      (kwargs : gmap string Any)
  | FinnhubCall (ticker start_date end_date data_type : string)
      (data_dir period : option string).

Definition fetch_source (c : FetchCall) : Source :=
  match c with
  | IbkrCall _ _ _ _ _ => Ibkr
  | FinnhubCall _ _ _ _ _ _ => Finnhub
  end.

(** What a run leaves behind, in order: log records, fetches of the
    manager, calls on the broker client, clock readings, pauses. *)
Inductive Event :=
  | ELog (lvl : Level) (msg : string)
  | EFetch (c : FetchCall)
  | EIB (r : IBRequest)
  | ENow (t : datetime)
  | ESleep (secs : Z).

Section Program.
Context `{Externals}.

(** The process: the configuration [get_config()] returns, the two
    module globals, the history of the run and the outside.  The
    history is bookkeeping: the program appends to it and never
    reads it. *)
Record World := mkWorld {
  config : Config;
  _ibkr_connection : option IBKRConnection;
  _data_source_manager : option DataSourceManager;
  trace : list Event;
  ext : Ext }.

Definition set_ibkr_connection (c : option IBKRConnection) (w : World) : World :=
  {| config := config w; _ibkr_connection := c;
     _data_source_manager := _data_source_manager w;
     trace := trace w; ext := ext w |}.

Definition set_data_source_manager (m : option DataSourceManager) (w : World)
  : World :=
  {| config := config w; _ibkr_connection := _ibkr_connection w;
     _data_source_manager := m; trace := trace w; ext := ext w |}.

Definition set_trace (t : list Event) (w : World) : World :=
  {| config := config w; _ibkr_connection := _ibkr_connection w;
     _data_source_manager := _data_source_manager w;
     trace := t; ext := ext w |}.

Definition set_ext (x : Ext) (w : World) : World :=
  {| config := config w; _ibkr_connection := _ibkr_connection w;
     _data_source_manager := _data_source_manager w;
     trace := trace w; ext := x |}.

(** Module-level code runs in [Proc]; a method of [IBKRConnection]
    runs in [Meth], whose state also holds [self]. *)
Definition Proc := M World.
Definition Meth := M (IBKRConnection * World).

Definition emit (ev : Event) : Proc unit :=
  modify (λ w, set_trace (trace w ++ [ev]) w).

Definition log (lvl : Level) (msg : string) : Proc unit := emit (ELog lvl msg).

(** An operation of the outside, run on [ext]. *)
Definition outside {A} (f : Ext → Res A * Ext) : Proc A :=
  λ w, let '(r, x) := f (ext w) in (r, set_ext x w).

Definition call_ib (r : IBRequest) : Proc (IBAnswer r) :=
  emit (EIB r);; outside (ib r).

Definition now : Proc datetime :=
  t ← outside (λ x, let '(t, x') := datetime_now x in (Ok t, x'));
  emit (ENow t);; mret t.

Definition sleep (secs : Z) : Proc unit :=
  emit (ESleep secs);; outside (λ x, (Ok tt, asyncio_sleep secs x)).

(** Modelled from the spec: [config.get_config], of a module that is
    not among the sources; it hands out the configuration of the
    process with the options the spec lists (data_source,
    enable_fallback, host, port, client id, timeout). *)
Definition get_config : Proc Config := gets config.

(** A pure library call that may raise. *)
Definition of_res {S A} (r : Res A) : M S A := λ s, (r, s).

Definition liftW {A} (m : Proc A) : Meth A :=
  λ '(c, w), let '(r, w') := m w in (r, (c, w')).

Definition self : Meth IBKRConnection := gets fst.

Definition set_self_connected (b : bool) : Meth unit :=
  modify (λ '(c, w), (set_connected b c, w)).

(** Runs a method on the object [c] that the global handle refers to;
    what the method did to the object is seen through the handle. *)
Definition with_self {A} (c : IBKRConnection) (m : Meth A) : Proc A :=
  λ w, let '(r, (c', w')) := m (c, w) in (r, set_ibkr_connection (Some c') w').

(** ** ibkr_utils.py: class IBKRConnection *)

(** [IBKRConnection.__init__] *)
Definition IBKRConnection_init : Proc IBKRConnection :=
  cfg ← get_config;
  mret {| conn_config := cfg;
          conn_host := default "127.0.0.1" (cfg_ibkr_host cfg);
          conn_port := default 7497 (cfg_ibkr_port cfg);
          conn_client_id := default 1 (cfg_ibkr_client_id cfg);
          conn_timeout := default 30 (cfg_ibkr_timeout cfg);
          connected := false |}.

Definition connect : Meth unit :=
  try_except
    (c ← self;
     liftW (call_ib (connectAsync (conn_host c) (conn_port c)
                       (conn_client_id c) (conn_timeout c)));;
     set_self_connected true;;
     liftW (log INFO ("Connected to IBKR at " ++ conn_host c ++ ":"
                        ++ pretty (conn_port c))))
    (λ e,
     liftW (log ERROR ("Failed to connect to IBKR: " ++ exn_str e));;
     set_self_connected false;;
     raise e).

Definition disconnect : Meth unit :=
  c ← self;
  if connected c then
    liftW (call_ib disconnect_ib);;
    set_self_connected false;;
    liftW (log INFO "Disconnected from IBKR")
  else mret tt.

Definition get_contract (ticker exch : string) : Contract :=
  Stock ticker exch "USD".

(** [if not self.connected: await self.connect()] *)
Definition ensure_connected : Meth unit :=
  c ← self;
  if negb (connected c) then connect else mret tt.

Definition get_historical_data (ticker : string)
    (duration bar_size what_to_show : Any) : Meth (option DataFrame) :=
  ensure_connected;;
  let contract := get_contract ticker "SMART" in
  bars ← liftW (call_ib (reqHistoricalDataAsync contract "" duration bar_size
                           what_to_show true 1));
  mret (util_df bars).

(** The dict [get_news_articles] builds for one article. *)
Record Article := mkArticle {
  art_time : datetime; art_providerCode : Any; art_articleId : Any;
  art_headline : Any }.

Definition article_of (a : HistoricalNews) : Article :=
  {| art_time := hn_time a; art_providerCode := hn_providerCode a;
     art_articleId := hn_articleId a; art_headline := hn_headline a |}.

Definition article_dict (a : Article) : Any :=
  ADict [("time", ATime (art_time a)); ("providerCode", art_providerCode a);
         ("articleId", art_articleId a); ("headline", art_headline a)].

(** [timedelta(days=n)] and [t - timedelta(days=n)], which raise
    OverflowError outside the ranges of the two types. *)
Definition OverflowError (msg : string) : exn := mkExn "OverflowError" msg.

Definition timedelta (days : Z) : Res Z :=
  if Z.abs days <=? 999999999 then Ok days
  else Err (OverflowError ("days=" ++ pretty days
                             ++ "; must have magnitude <= 999999999")).

Definition datetime_sub_days (t : datetime) (days : Z) : Res datetime :=
  let o := ordinal t - days in
  if (1 <=? o) && (o <=? 3652059)
  then Ok {| ordinal := o; day_micros := day_micros t |}
  else Err (OverflowError "date value out of range").

Definition get_news_articles (ticker : string) (days_back : Z)
  : Meth (list Article) :=
  ensure_connected;;
  let contract := get_contract ticker "SMART" in
  contract_details ← liftW (call_ib (reqContractDetailsAsync contract));
  match contract_details with
  | [] => mret []
  | detail :: _ =>
    try_except
      (providers ← liftW (call_ib reqNewsProvidersAsync);
       match providers with
       | [] => mret []
       | provider :: _ =>
         let provider_code := code provider in
         t1 ← liftW now;
         delta ← of_res (timedelta days_back);
         startDateTime ← of_res (datetime_sub_days t1 delta);
         endDateTime ← liftW now;
         articles ← liftW (call_ib (reqHistoricalNewsAsync
                                      (conId (cd_contract detail))
                                      provider_code startDateTime endDateTime
                                      100));
         mret (article_of <$> articles)
       end)
      (λ e,
       liftW (log WARNING ("Failed to get news for " ++ ticker ++ ": "
                             ++ exn_str e));;
       mret [])
  end.

Definition get_company_info (ticker : string) : Meth (list (string * Any)) :=
  ensure_connected;;
  let contract := get_contract ticker "SMART" in
  contract_details ← liftW (call_ib (reqContractDetailsAsync contract));
  match contract_details with
  | [] => mret []
  | detail :: _ =>
    mret [("symbol", AStr (symbol (cd_contract detail)));
          ("exchange", AStr (exchange (cd_contract detail)));
          ("currency", AStr (currency (cd_contract detail)));
          ("longName", longName detail);
          ("industry", industry detail);
          ("category", category detail);
          ("subcategory", subcategory detail);
          ("timeZoneId", timeZoneId detail);
          ("tradingHours", tradingHours detail);
          ("liquidHours", liquidHours detail);
          ("evRule", evRule detail);
          ("evMultiplier", evMultiplier detail);
          ("minTick", minTick detail);
          ("orderTypes", orderTypes detail);
          ("validExchanges", validExchanges detail);
          ("underConId", underConId detail);
          ("marketRuleIds", marketRuleIds detail)]
  end.

Definition get_fundamentals (ticker : string) : Meth (list (string * Any)) :=
  ensure_connected;;
  let contract := get_contract ticker "SMART" in
  try_except
    (fundamental_data ← liftW (call_ib (reqFundamentalDataAsync contract
                                          "ReportSnapshot"));
     mret [("fundamentals", fundamental_data)])
    (λ e,
     liftW (log WARNING ("Failed to get fundamentals for " ++ ticker ++ ": "
                           ++ exn_str e));;
     mret []).

Definition get_real_time_data (ticker : string) : Meth (list (string * Any)) :=
  ensure_connected;;
  let contract := get_contract ticker "SMART" in
  liftW (call_ib (reqMktData contract "" false false));;
  liftW (sleep 2);;
  ticker_data ← liftW (call_ib (ticker_of contract));
  match ticker_data with
  | Some t =>
    mret [("symbol", AStr (symbol (tk_contract t)));
          ("bid", bid t); ("ask", ask t); ("last", last t);
          ("lastSize", lastSize t); ("volume", volume t);
          ("high", high t); ("low", low t); ("close", close t);
          ("halted", halted t); ("bidSize", bidSize t);
          ("askSize", askSize t); ("time", tk_time t)]
  | None => mret []
  end.

(** ** ibkr_utils.py: module level *)

Definition get_ibkr_connection : Proc IBKRConnection :=
  g ← gets _ibkr_connection;
  match g with
  | None =>
    c ← IBKRConnection_init;
    modify (set_ibkr_connection (Some c));;
    mret c
  | Some c => mret c
  end.

(** [(end_dt - start_dt).days]: a timedelta is normalised so that its
    seconds and microseconds are not negative, hence the floor. *)
Definition day_micros_len : Z := 86400000000.

Definition days_between (end_dt start_dt : datetime) : Z :=
  ((ordinal end_dt - ordinal start_dt) * day_micros_len
   + (day_micros end_dt - day_micros start_dt)) `div` day_micros_len.

(** [start_date <= date_str <= end_date] on Python strings *)
Definition in_range (start_date end_date date_str : string) : bool :=
  String.leb start_date date_str && String.leb date_str end_date.

(** The loop that groups the articles by date. *)
Definition group_articles (start_date end_date : string)
    (articles : list Article) : gmap string (list Article) :=
  foldl (λ grouped_data article,
           let date_str := strftime_ymd (art_time article) in
           if in_range start_date end_date date_str
           then <[date_str := (default [] (grouped_data !! date_str)
                                 ++ [article])%list]> grouped_data
           else grouped_data)
        ∅ articles.

Definition news_result (grouped_data : gmap string (list Article)) : Result :=
  (λ l, AList (article_dict <$> l)) <$> grouped_data.

(** [df['date'] = pd.to_datetime(df['date']).dt.strftime('%Y-%m-%d')]:
    every row with its new [date] cell; the first cell that is no
    date raises. *)
Fixpoint format_dates (rows : DataFrame)
  : Res (list (option string * BarData)) :=
  match rows with
  | [] => Ok []
  | row :: rest =>
    match to_datetime_strftime (bar_date row) with
    | Err e => Err e
    | Ok d =>
      match format_dates rest with
      | Err e => Err e
      | Ok ds => Ok ((d, row) :: ds)
      end
    end
  end.

(** [df[(df['date'] >= start_date) & (df['date'] <= end_date)]]; a
    comparison with NaN is false. *)
Definition filter_rows (start_date end_date : string)
    (rows : list (option string * BarData)) : list (string * BarData) :=
  omap (λ '(d, row),
          match d with
          | Some date_str =>
            if in_range start_date end_date date_str
            then Some (date_str, row) else None
          | None => None
          end) rows.

(** [row.to_dict()] *)
Definition row_to_dict (date_str : string) (row : BarData) : Any :=
  ADict (("date", AStr date_str) :: bar_rest row).

Definition group_rows (filtered_df : list (string * BarData)) : Result :=
  foldl (λ grouped_data '(date_str, row),
           <[date_str := row_to_dict date_str row]> grouped_data)
        ∅ filtered_df.

Definition AttributeError (msg : string) : exn := mkExn "AttributeError" msg.

(** [{end_date: d} if d else {}] *)
Definition keyed_by (end_date : string) (d : list (string * Any)) : Result :=
  if list_truthy d then {[ end_date := ADict d ]} else ∅.

Definition get_ibkr_data_in_range (ticker start_date end_date data_type : string)
    (kwargs : gmap string Any) : Proc Result :=
  conn ← get_ibkr_connection;
  with_self conn
    (try_except
       (if String.eqb data_type "news" then
          start_dt ← of_res (strptime_ymd start_date);
          end_dt ← of_res (strptime_ymd end_date);
          let days_back := days_between end_dt start_dt in
          articles ← get_news_articles ticker days_back;
          mret (news_result (group_articles start_date end_date articles))
        else if String.eqb data_type "historical" then
          let duration := default (AStr "1 Y") (kwargs !! "duration") in
          let bar_size := default (AStr "1 day") (kwargs !! "bar_size") in
          let what_to_show := default (AStr "TRADES") (kwargs !! "what_to_show") in
          df ← get_historical_data ticker duration bar_size what_to_show;
          match df with
          | None =>
            raise (AttributeError "'NoneType' object has no attribute 'empty'")
          | Some rows =>
            if list_truthy rows then
              dated ← of_res (format_dates rows);
              let filtered_df := filter_rows start_date end_date dated in
              mret (group_rows filtered_df)
            else mret ∅
          end
        else if String.eqb data_type "fundamentals" then
          fundamental_data ← get_fundamentals ticker;
          mret (keyed_by end_date fundamental_data)
        else if String.eqb data_type "company_info" then
          company_info ← get_company_info ticker;
          mret (keyed_by end_date company_info)
        else if String.eqb data_type "real_time" then
          real_time_data ← get_real_time_data ticker;
          mret (keyed_by end_date real_time_data)
        else
          liftW (log WARNING ("Unknown data type: " ++ data_type));;
          mret ∅)
       (λ e,
        liftW (log ERROR ("Error fetching IBKR data: " ++ exn_str e));;
        raise e)).

(** [asyncio.run(coro)] *)
Definition asyncio_run {A} (coro : Proc A) : Proc A :=
  outside asyncio_run_enter;; coro.

Definition cleanup_ibkr_connection : Proc unit :=
  g ← gets _ibkr_connection;
  match g with
  | Some c =>
    try_except
      (asyncio_run (with_self c disconnect))
      (λ e, log WARNING ("Error during IBKR cleanup: " ++ exn_str e));;
    modify (set_ibkr_connection None)
  | None => mret tt
  end.

(** ** data_source_manager.py *)

(** [DataSourceManager.__init__] *)
Definition DataSourceManager_init : Proc DataSourceManager :=
  cfg ← get_config;
  mret {| mgr_config := cfg;
          primary_source := default "finnhub" (cfg_data_source cfg);
          enable_fallback := default true (cfg_enable_fallback cfg) |}.

(** The two fetches.  Each leaves an [EFetch] with its arguments in
    the history when it is entered. *)
Definition _get_ibkr_data (ticker start_date end_date data_type : string)
    (kwargs : gmap string Any) : Proc Result :=
  emit (EFetch (IbkrCall ticker start_date end_date data_type kwargs));;
  get_ibkr_data_in_range ticker start_date end_date data_type kwargs.

Definition _get_finnhub_data (ticker start_date end_date data_type : string)
    (data_dir period : option string) : Proc Result :=
  emit (EFetch (FinnhubCall ticker start_date end_date data_type
                  data_dir period));;
  let data_dir := default DATA_DIR data_dir in
  outside (get_finnhub_data_in_range ticker start_date end_date data_type
             data_dir period).

(** How control leaves the first [try] of [get_data_in_range]: by its
    [return], or by falling out of it with the two locals. *)
Inductive FirstTry :=
  | Returned (primary_data : Result)
  | FellThrough (primary_data : option Result) (primary_error : option exn).

(** [not primary_data], for a local that is None or a dict *)
Definition not_data (primary_data : option Result) : bool :=
  match primary_data with
  | None => true
  | Some d => negb (dict_truthy d)
  end.

Definition get_data_in_range (self : DataSourceManager)
    (ticker start_date end_date data_type : string)
    (data_dir period : option string) (kwargs : gmap string Any)
  : Proc Result :=
  first ← try_except
    (primary_data ←
       (if String.eqb (primary_source self) "ibkr"
        then _get_ibkr_data ticker start_date end_date data_type kwargs
        else _get_finnhub_data ticker start_date end_date data_type
               data_dir period);
     if dict_truthy primary_data then
       log INFO ("Successfully fetched data from " ++ primary_source self);;
       mret (Returned primary_data)
     else mret (FellThrough (Some primary_data) None))
    (λ e,
     log WARNING ("Failed to fetch data from " ++ primary_source self ++ ": "
                    ++ exn_str e);;
     mret (FellThrough None (Some e)));
  match first with
  | Returned primary_data => mret primary_data
  | FellThrough primary_data primary_error =>
    second ←
      (if enable_fallback self
          && (not_data primary_data || bool_decide (is_Some primary_error))
       then
         try_except
           (let fallback_source :=
              if String.eqb (primary_source self) "ibkr"
              then "finnhub" else "ibkr" in
            log INFO ("Attempting fallback to " ++ fallback_source);;
            fallback_data ←
              (if String.eqb fallback_source "ibkr"
               then _get_ibkr_data ticker start_date end_date data_type kwargs
               else _get_finnhub_data ticker start_date end_date data_type
                      data_dir period);
            if dict_truthy fallback_data then
              log INFO ("Successfully fetched data from fallback source: "
                          ++ fallback_source);;
              mret (Some fallback_data)
            else mret None)
           (λ e,
            log WARNING ("Fallback also failed: " ++ exn_str e);;
            mret None)
       else mret None);
    match second with
    | Some fallback_data => mret fallback_data
    | None =>
      match primary_error with
      | Some e => raise e
      | None => mret ∅
      end
    end
  end.

(** [DataSourceManager.cleanup] *)
Definition cleanup (self : DataSourceManager) : Proc unit :=
  try_except cleanup_ibkr_connection
    (λ e, log WARNING ("Error during cleanup: " ++ exn_str e)).

Definition get_data_source_manager : Proc DataSourceManager :=
  g ← gets _data_source_manager;
  match g with
  | None =>
    m ← DataSourceManager_init;
    modify (set_data_source_manager (Some m));;
    mret m
  | Some m => mret m
  end.

Definition cleanup_data_sources : Proc unit :=
  g ← gets _data_source_manager;
  match g with
  | Some m =>
    cleanup m;;
    modify (set_data_source_manager None)
  | None => mret tt
  end.

(** ** Vocabulary of the properties *)

(** Which provider plays which part for a manager. *)
Definition primary (self : DataSourceManager) : Source :=
  if String.eqb (primary_source self) "ibkr" then Ibkr else Finnhub.

Definition secondary (self : DataSourceManager) : Source :=
  match primary self with Ibkr => Finnhub | Finnhub => Ibkr end.

(** The fetch of a provider for a request, and the record it leaves. *)
Definition fetch (src : Source) (ticker start_date end_date data_type : string)
    (data_dir period : option string) (kwargs : gmap string Any)
  : Proc Result :=
  match src with
  | Ibkr => _get_ibkr_data ticker start_date end_date data_type kwargs
  | Finnhub => _get_finnhub_data ticker start_date end_date data_type
                 data_dir period
  end.

Definition fetch_call (src : Source)
    (ticker start_date end_date data_type : string)
    (data_dir period : option string) (kwargs : gmap string Any) : FetchCall :=
  match src with
  | Ibkr => IbkrCall ticker start_date end_date data_type kwargs
  | Finnhub => FinnhubCall ticker start_date end_date data_type data_dir period
  end.

(** The fetches of a provider in a history, in order. *)
Definition fetches_of (src : Source) (tr : list Event) : list FetchCall :=
  omap (λ ev, match ev with
              | EFetch c => if decide (fetch_source c = src) then Some c else None
              | _ => None
              end) tr.

(** [m] only appends to the history, and only events satisfying [P],
    whatever its outcome. *)
Definition emits_only {S A} (tr : S → list Event) (P : Event → Prop)
    (m : M S A) : Prop :=
  ∀ s, ∃ evs, tr (m s).2 = (tr s ++ evs)%list ∧ Forall P evs.

(** The history seen from inside a method. *)
Definition mtrace (s : IBKRConnection * World) : list Event := trace s.2.

Definition is_fetch (ev : Event) : bool :=
  match ev with EFetch _ => true | _ => false end.

Definition no_fetch (ev : Event) : Prop := is_fetch ev = false.

(** The world after one more log record. *)
Definition logged (lvl : Level) (msg : string) (w : World) : World :=
  set_trace (trace w ++ [ELog lvl msg]) w.

(** The name the manager gives to the provider it falls back to. *)
Definition fallback_source (self : DataSourceManager) : string :=
  if String.eqb (primary_source self) "ibkr" then "finnhub" else "ibkr".

(** How a request ends once the fallback is over or was skipped. *)
Definition after_fallback (primary_error : option exn) (w : World)
  : Res Result * World :=
  match primary_error with
  | Some e => (Err e, w)
  | None => (Ok ∅, w)
  end.

(** The fallback of a request, entered when the first [try] was left
    without a [return]: the fetch of the secondary, in terms of
    [fetch]. *)
Definition fallback_run (self : DataSourceManager)
    (ticker start_date end_date data_type : string)
    (data_dir period : option string) (kwargs : gmap string Any)
    (primary_error : option exn) (w : World) : Res Result * World :=
  match fetch (secondary self) ticker start_date end_date data_type data_dir
          period kwargs
          (logged INFO ("Attempting fallback to " ++ fallback_source self) w)
  with
  | (Ok d, w') =>
    if dict_truthy d
    then (Ok d, logged INFO ("Successfully fetched data from fallback source: "
                               ++ fallback_source self) w')
    else after_fallback primary_error w'
  | (Err e, w') =>
    after_fallback primary_error
      (logged WARNING ("Fallback also failed: " ++ exn_str e) w')
  end.

Definition data_kinds : list string :=
  ["news"; "historical"; "fundamentals"; "company_info"; "real_time"].

(** Every value [m] returns satisfies [Q]. *)
Definition returns_only {S A} (Q : A → Prop) (m : M S A) : Prop :=
  ∀ s a s', m s = (Ok a, s') → Q a.

(** A key is in the requested range. *)
Definition key_in_range (start_date end_date : string) (r : Result) : Prop :=
  ∀ k, k ∈ dom r → String.leb start_date k = true ∧ String.leb k end_date = true.

(** The kinds whose result has one entry at most. *)
Definition snapshot_kinds : list string :=
  ["fundamentals"; "company_info"; "real_time"].

Definition is_news_query (ev : Event) : bool :=
  match ev with
  | EIB (reqHistoricalNewsAsync _ _ _ _ _) => true
  | _ => false
  end.

Definition no_news_query (ev : Event) : Prop := is_news_query ev = false.

(** The instant of a [datetime] in microseconds since the start of
    day 0, and what [(end_dt - start_dt).days] is: the number of whole
    days from [start_dt] to [end_dt]. *)
Definition micros (t : datetime) : Z :=
  ordinal t * 86400000000 + day_micros t.

Definition whole_days (start_dt end_dt : datetime) (days : Z) : Prop :=
  micros start_dt + days * 86400000000 ≤ micros end_dt
  ∧ micros end_dt < micros start_dt + (days + 1) * 86400000000.

(** The same time of day, [days] days earlier. *)
Definition days_before (t : datetime) (days : Z) : datetime :=
  {| ordinal := ordinal t - days; day_micros := day_micros t |}.

(** Every news query in [evs] asks for 100 results and comes right
    after two readings of the clock: its window starts [days_back]
    days before the first reading and ends at the second. *)
Definition anchored (days_back : Z) (evs : list Event) : Prop :=
  ∀ pre post cid codes from to total,
    evs = (pre ++ EIB (reqHistoricalNewsAsync cid codes from to total)
               :: post)%list →
    total = 100
    ∧ ∃ pre' t1, pre = (pre' ++ [ENow t1; ENow to])%list
                 ∧ from = days_before t1 days_back.

(** What a run of [get_news_articles] adds to the history [tr0], giving
    [tr1], and what it returns: articles come from a news query
    only. *)
Definition news_post (days_back : Z) (tr0 : list Event)
    (r : Res (list Article)) (tr1 : list Event) : Prop :=
  ∃ evs, tr1 = (tr0 ++ evs)%list
         ∧ anchored days_back evs
         ∧ (Forall no_news_query evs →
            ∀ articles, r = Ok articles → articles = []).

(** The news query of [get_news_articles] for the first contract and
    the first provider, with the clock read as [t1] and then as [t2]. *)
Definition news_query (detail : ContractDetails) (provider : NewsProvider)
    (t1 t2 : datetime) (days_back : Z) : IBRequest :=
  reqHistoricalNewsAsync (conId (cd_contract detail)) (code provider)
    (days_before t1 days_back) t2 100.

(** What a connected [get_news_articles] does up to that query. *)
Definition news_events (ticker : string) (detail : ContractDetails)
    (provider : NewsProvider) (t1 t2 : datetime) (days_back : Z)
  : list Event :=
  [EIB (reqContractDetailsAsync (get_contract ticker "SMART"));
   EIB reqNewsProvidersAsync; ENow t1; ENow t2;
   EIB (news_query detail provider t1 t2 days_back)].

End Program.

Arguments World {_}.
Arguments mkWorld {_}.

(** ** A scripted outside *)

(** A gateway, a clock and a Finnhub cache with fixed answers, on which
    the definitions can be run. *)
Module Scripted.

(** The calendar: day number of a civil date and back (proleptic
    Gregorian, day 1 is 0001-01-01). *)
Definition days_from_civil (y m d : Z) : Z :=
  let y' := if m <=? 2 then y - 1 else y in
  let era := y' `div` 400 in
  let yoe := y' - era * 400 in
  let mp := if m <=? 2 then m + 9 else m - 3 in
  let doy := (153 * mp + 2) `div` 5 + d - 1 in
  let doe := yoe * 365 + yoe `div` 4 - yoe `div` 100 + doy in
  era * 146097 + doe - 305.

Definition civil_from_days (o : Z) : Z * Z * Z :=
  let z := o + 305 in
  let era := z `div` 146097 in
  let doe := z - era * 146097 in
  let yoe := (doe - doe `div` 1460 + doe `div` 36524 - doe `div` 146096)
               `div` 365 in
  let doy := doe - (365 * yoe + yoe `div` 4 - yoe `div` 100) in
  let mp := (5 * doy + 2) `div` 153 in
  let d := doy - (153 * mp + 2) `div` 5 + 1 in
  let m := if mp <? 10 then mp + 3 else mp - 9 in
  let y := yoe + era * 400 in
  (if m <=? 2 then y + 1 else y, m, d).

Definition digit (c : ascii) : option Z :=
  let n := Z.of_N (Ascii.N_of_ascii c) - 48 in
  if (0 <=? n) && (n <=? 9) then Some n else None.

(** [datetime.strptime(s, "%Y-%m-%d")] on ASCII text, as the regular
    expression of [_strptime] reads it: a year of four digits; a month
    of the form 1[0-2], 0[1-9] or [1-9]; a day of the first of the
    forms 3[0-1], [1-2]d, 0[1-9], [1-9] and space [1-9] that fits; what
    is left after the day is unconverted data. *)
Definition parse_month (cs : list ascii) : option (Z * list ascii) :=
  match cs with
  | m1 :: "-"%char :: rest =>
    a ← digit m1; if 1 <=? a then Some (a, rest) else None
  | m1 :: m2 :: "-"%char :: rest =>
    a ← digit m1; b ← digit m2;
    let m := a * 10 + b in
    if (1 <=? m) && (m <=? 12) then Some (m, rest) else None
  | _ => None
  end.

Definition parse_day (cs : list ascii) : option (Z * list ascii) :=
  match cs with
  | [] => None
  | [c1] =>
    match digit c1 with
    | Some a => if 1 <=? a then Some (a, []) else None
    | None => None
    end
  | c1 :: c2 :: rest =>
    match digit c1, digit c2 with
    | Some 3, Some b =>
      if b <=? 1 then Some (30 + b, rest) else Some (3, c2 :: rest)
    | Some 0, Some b => if 1 <=? b then Some (b, rest) else None
    | Some 0, None => None
    | Some a, Some b =>
      if a <=? 2 then Some (a * 10 + b, rest) else Some (a, c2 :: rest)
    | Some a, None => Some (a, c2 :: rest)
    | None, Some b =>
      if bool_decide (c1 = " "%char) && (1 <=? b) then Some (b, rest)
      else None
    | None, None => None
    end
  end.

Definition parse_ymd (s : string) : option (Z * Z * Z * list ascii) :=
  match String.list_ascii_of_string s with
  | y1 :: y2 :: y3 :: y4 :: "-"%char :: cs =>
    a ← digit y1; b ← digit y2; c ← digit y3; d ← digit y4;
    '(m, cs) ← parse_month cs;
    '(day, cs) ← parse_day cs;
    Some (a * 1000 + b * 100 + c * 10 + d, m, day, cs)
  | _ => None
  end.

Definition ValueError (msg : string) : exn := mkExn "ValueError" msg.

(** The error texts are Python's; [s] is quoted as [repr] quotes a
    string without quotes, backslashes and control characters. *)
Definition strptime (s : string) : Res datetime :=
  match parse_ymd s with
  | Some (y, m, d, []) =>
    let o := days_from_civil y m d in
    if y =? 0 then Err (ValueError "year 0 is out of range")
    else if bool_decide (civil_from_days o = (y, m, d))
    then Ok (mkDatetime o 0)
    else Err (ValueError "day is out of range for month")
  | Some (_, _, _, rest) =>
    Err (ValueError ("unconverted data remains: "
                       ++ String.string_of_list_ascii rest))
  | None =>
    Err (ValueError ("time data '" ++ s
                       ++ "' does not match format '%Y-%m-%d'"))
  end.

Definition pad (width : nat) (s : string) : string :=
  String.concat "" (replicate (width - String.length s)%nat "0") ++ s.

(** [t.strftime("%Y-%m-%d")] with the C library of Linux, which does
    not pad the year. *)
Definition strftime (t : datetime) : string :=
  let '(y, m, d) := civil_from_days (ordinal t) in
  pretty y ++ "-" ++ pad 2 (pretty m) ++ "-" ++ pad 2 (pretty d).

(** The outside: whether the gateway accepts connections, what it
    knows, the reading of the clock, and what the Finnhub provider
    would return. *)
Record Outside := mkOutside {
  gateway_up : bool;
  details : list ContractDetails;
  providers : list NewsProvider;
  news : list HistoricalNews;
  bars : list BarData;
  report : option Any;
  quote : option Ticker;
  clock : datetime;
  loop_running : bool;
  finnhub_files : Res Result }.

Definition ConnectionRefusedError : exn :=
  mkExn "ConnectionRefusedError" "Connect call failed ('127.0.0.1', 7497)".

Definition before (a b : datetime) : bool :=
  (ordinal a <? ordinal b)
  || ((ordinal a =? ordinal b) && (day_micros a <=? day_micros b)).

(** The gateway answers a news query with what it has inside the
    window asked for. *)
Definition scripted_ib (r : IBRequest) (x : Outside)
  : Res (IBAnswer r) * Outside :=
  match r return Res (IBAnswer r) * Outside with
  | connectAsync _ _ _ _ =>
    (if gateway_up x then Ok tt else Err ConnectionRefusedError, x)
  | disconnect_ib => (Ok tt, x)
  | reqHistoricalDataAsync _ _ _ _ _ _ _ => (Ok (bars x), x)
  | reqContractDetailsAsync _ => (Ok (details x), x)
  | reqNewsProvidersAsync => (Ok (providers x), x)
  | reqHistoricalNewsAsync _ _ from to _ =>
    (Ok (filter (λ a, before from (hn_time a) && before (hn_time a) to)
           (news x)), x)
  | reqFundamentalDataAsync _ _ =>
    (match report x with
     | Some v => Ok v
     | None => Err (mkExn "RequestError" "fundamentals not available")
     end, x)
  | reqMktData _ _ _ _ => (Ok tt, x)
  | ticker_of _ => (Ok (quote x), x)
  end.

Definition scripted_to_datetime (v : Any) : Res (option string) :=
  match v with
  | ANone => Ok None
  | ATime t => Ok (Some (strftime t))
  | AStr s =>
    match strptime s with
    | Ok t => Ok (Some (strftime t))
    | Err e => Err e
    end
  | _ => Err (mkExn "TypeError" "not convertible to datetime")
  end.

#[export] Instance scripted : Externals := {|
  Ext := Outside;
  ib := scripted_ib;
  datetime_now := λ x, (clock x, x);
  asyncio_sleep := λ _ x, x;
  asyncio_run_enter := λ x,
    (if loop_running x
     then Err (mkExn "RuntimeError"
                 "asyncio.run() cannot be called from a running event loop")
     else Ok tt, x);
  strptime_ymd := strptime;
  strftime_ymd := strftime;
  util_df := λ bars, match bars with [] => None | _ => Some bars end;
  to_datetime_strftime := scripted_to_datetime;
  get_finnhub_data_in_range := λ _ _ _ _ _ _ x, (finnhub_files x, x);
  DATA_DIR := "./data"
|}.

End Scripted.

(** ** A request for the news of one week *)

(** The request of the specification's scenario (AAPL, 2024-01-01 to
    2024-01-05, news) against the scripted outside: a manager with
    IBKR as primary, a gateway that is up or down, a clock, and a
    Finnhub provider with a fixed outcome. *)
Module Scenario.
Import Scripted.

Definition aapl : Contract := mkContract "AAPL" "SMART" "USD" 265598.

Definition aapl_details : ContractDetails :=
  mkContractDetails aapl (AStr "APPLE INC") (AStr "Technology")
    (AStr "Computers") ANone (AStr "US/Eastern") ANone ANone ANone (AInt 0)
    (AOpaque 1) (AStr "LMT,MKT") (AStr "SMART,NASDAQ") (AInt 0) (AStr "26").

Definition briefing : NewsProvider := mkNewsProvider "BRFG" "Briefing.com".

(** An article of 2024-01-03, 09:30. *)
Definition article_jan3 : HistoricalNews :=
  mkHistoricalNews (mkDatetime 738888 34200000000) (AStr "BRFG")
    (AStr "BRFG$1") (AStr "Apple opens lower").

Definition news_jan3 : Result :=
  {[ "2024-01-03" := AList [article_dict (article_of article_jan3)] ]}.

Definition cached_news : Result :=
  {[ "2024-01-02" := AList [AStr "Apple to report earnings"] ]}.

Definition FileNotFoundError : exn :=
  mkExn "FileNotFoundError" "No such file or directory".

(** Noon of 2024-01-05 and of 2024-06-01. *)
Definition jan5_noon : datetime := mkDatetime 738890 43200000000.
Definition jun1_noon : datetime := mkDatetime 739038 43200000000.

Definition outside_at (up : bool) (clock : datetime) (files : Res Result)
  : Outside :=
  mkOutside up [aapl_details] [briefing] [article_jan3] [] None None clock
    false files.

Definition config_ibkr (fallback : bool) : Config :=
  mkConfig (Some "ibkr") (Some fallback) None None None None.

Definition world_at (up : bool) (clock : datetime) (files : Res Result)
    (fallback : bool) : World :=
  mkWorld (config_ibkr fallback) None None [] (outside_at up clock files).

Definition manager (fallback : bool) : DataSourceManager :=
  mkDataSourceManager (config_ibkr fallback) "ibkr" fallback.

Definition finnhub_call : FetchCall :=
  FinnhubCall "AAPL" "2024-01-01" "2024-01-05" "news" None None.

(** An article of 2024-01-05, 09:00, and a process started at noon of
    that day with a gateway that holds both articles. *)
Definition article_jan5 : HistoricalNews :=
  mkHistoricalNews (mkDatetime 738890 32400000000) (AStr "BRFG")
    (AStr "BRFG$2") (AStr "Apple supplier raises guidance").

Definition two_articles : Outside :=
  mkOutside true [aapl_details] [briefing] [article_jan3; article_jan5] []
    None None jan5_noon false (Ok ∅).

Definition world_two : World :=
  mkWorld (config_ibkr true) None None [] two_articles.

(** The connection object of that process, before and after
    [connect]. *)
Definition connection_new : IBKRConnection :=
  mkIBKRConnection (config_ibkr true) "127.0.0.1" 7497 1 30 false.

Definition connection_up : IBKRConnection :=
  mkIBKRConnection (config_ibkr true) "127.0.0.1" 7497 1 30 true.

End Scenario.

(** ** Vocabulary of the methods and of the module state *)

Section Outcomes.
Context `{Externals}.

(** The call [connect] makes for the object [c]. *)
Definition connect_request (c : IBKRConnection) : IBRequest :=
  connectAsync (conn_host c) (conn_port c) (conn_client_id c) (conn_timeout c).

(** The world after a call on the client: the record of the call and
    the outside as the call left it. *)
Definition called (r : IBRequest) (x : Ext) (w : World) : World :=
  set_ext x (set_trace (trace w ++ [EIB r]) w).

(** The world after [connect] failed with [e]. *)
Definition connect_failed (c : IBKRConnection) (e : exn) (x : Ext) (w : World)
  : World :=
  logged ERROR ("Failed to connect to IBKR: " ++ exn_str e)
    (called (connect_request c) x w).

(** What a method gives when [connect] failed in it with [e]. *)
Definition refused {A} (c : IBKRConnection) (e : exn) (x : Ext) (w : World)
  : Res A * (IBKRConnection * World) :=
  (Err e, (set_connected false c, connect_failed c e x w)).

(** From a state satisfying [I], [m] ends in a state satisfying [I]
    and adds to the history only events satisfying [P]. *)
Definition holds {S A} (tr : S → list Event) (I : S → Prop)
    (P : Event → Prop) (m : M S A) : Prop :=
  ∀ s, I s → I (m s).2 ∧ ∃ evs, tr (m s).2 = (tr s ++ evs)%list ∧ Forall P evs.

(** An invariant of a method, from one of the object and one of the
    process. *)
Definition both (Ic : IBKRConnection → Prop) (Iw : World → Prop)
    (s : IBKRConnection * World) : Prop :=
  Ic s.1 ∧ Iw s.2.

(** The module state a data request leaves alone: the configuration
    and the manager handle. *)
Record Frame := mkFrame {
  frame_config : Config;
  frame_manager : option DataSourceManager }.

Definition frame_of (w : World) : Frame :=
  {| frame_config := config w; frame_manager := _data_source_manager w |}.

(** The events that are a [connectAsync] call. *)
Definition is_connect (ev : Event) : bool :=
  match ev with EIB (connectAsync _ _ _ _) => true | _ => false end.

(** The request for the report of a ticker. *)
Definition report_request (ticker : string) : IBRequest :=
  reqFundamentalDataAsync (get_contract ticker "SMART") "ReportSnapshot".

(** The request for the bars of a ticker. *)
Definition bars_request (ticker : string) (kwargs : gmap string Any)
  : IBRequest :=
  reqHistoricalDataAsync (get_contract ticker "SMART") ""
    (default (AStr "1 Y") (kwargs !! "duration"))
    (default (AStr "1 day") (kwargs !! "bar_size"))
    (default (AStr "TRADES") (kwargs !! "what_to_show")) true 1.

(** Two connection objects that differ in the [connected] flag at
    most. *)
Definition same_settings (c c' : IBKRConnection) : Prop :=
  set_connected false c = set_connected false c'.

(** The object [IBKRConnection()] builds under a configuration. *)
Definition fresh_connection (cfg : Config) : IBKRConnection :=
  {| conn_config := cfg;
     conn_host := default "127.0.0.1" (cfg_ibkr_host cfg);
     conn_port := default 7497 (cfg_ibkr_port cfg);
     conn_client_id := default 1 (cfg_ibkr_client_id cfg);
     conn_timeout := default 30 (cfg_ibkr_timeout cfg);
     connected := false |}.

(** The articles of a list dated [d], in order, and the rows of a
    frame dated [d], in order. *)
Definition articles_on (d : string) (articles : list Article) : list Article :=
  filter (λ a, strftime_ymd (art_time a) = d) articles.


(** The object [DataSourceManager()] builds under a configuration. *)
Definition fresh_manager (cfg : Config) : DataSourceManager :=
  {| mgr_config := cfg;
     primary_source := default "finnhub" (cfg_data_source cfg);
     enable_fallback := default true (cfg_enable_fallback cfg) |}.

(** The kinds that go to the gateway without reading the dates. *)
Definition undated_kinds : list string :=
  ["historical"; "fundamentals"; "company_info"; "real_time"].

End Outcomes.

(** ** Connection objects for the scripted outside *)

Module Connections.
Import Scripted Scenario.

(** The connection object of the scenario, before and after a
    successful [connect]. *)
Definition offline : IBKRConnection := fresh_connection (config_ibkr true).
Definition online : IBKRConnection := set_connected true offline.

(** A world whose connection handle holds [c]. *)
Definition world_with (c : IBKRConnection) (x : Outside) : World :=
  mkWorld (config_ibkr true) (Some c) None [] x.

(** A gateway that knows no contract, and one inside a running event
    loop. *)
Definition no_contract : Outside :=
  mkOutside true [] [briefing] [] [] None None jan5_noon false (Ok ∅).
Definition in_loop : Outside :=
  mkOutside true [aapl_details] [briefing] [article_jan3] [] None None
    jan5_noon true (Ok ∅).

(** A gateway that has a report. *)
Definition with_report : Outside :=
  mkOutside true [aapl_details] [briefing] [] []
    (Some (AStr "<ReportSnapshot/>")) None jan5_noon false (Ok ∅).

(** A manager whose data source is spelled in a way the code does not
    know. *)
Definition manager_yahoo : DataSourceManager :=
  mkDataSourceManager (config_ibkr true) "yahoo" true.

End Connections.

(** ** What a computation adds to the history *)

Section Emits.
Context {S : Type} (tr : S → list Event) (P : Event → Prop).

Lemma emits_ret {A} (a : A) : emits_only tr P (mret a).
Proof. intros s. exists []. by rewrite app_nil_r. Qed.

Lemma emits_raise {A} (e : exn) : emits_only tr P (@raise S A e).
Proof. intros s. exists []. by rewrite app_nil_r. Qed.

Lemma emits_gets {A} (f : S → A) : emits_only tr P (gets f).
Proof. intros s. exists []. by rewrite app_nil_r. Qed.

Lemma emits_of_res {A} (r : Res A) : emits_only tr P (of_res r).
Proof. intros s. exists []. by rewrite app_nil_r. Qed.

Lemma emits_modify (f : S → S) :
  (∀ s, tr (f s) = tr s) → emits_only tr P (modify f).
Proof. intros Hf s. exists []. simpl. by rewrite Hf, app_nil_r. Qed.

Lemma emits_bind {A B} (m : M S A) (k : A → M S B) :
  emits_only tr P m → (∀ a, emits_only tr P (k a)) → emits_only tr P (m ≫= k).
Proof.
  intros Hm Hk s. unfold mbind, M_bind, bind.
  destruct (Hm s) as (evs1 & E1 & F1).
  destruct (m s) as [[a | e] s1]; simpl in E1.
  - destruct (Hk a s1) as (evs2 & E2 & F2).
    exists (evs1 ++ evs2)%list. split.
    + by rewrite E2, E1, app_assoc.
    + by apply Forall_app.
  - by exists evs1.
Qed.

Lemma emits_try_except {A} (m : M S A) (h : exn → M S A) :
  emits_only tr P m → (∀ e, emits_only tr P (h e)) → emits_only tr P (try_except m h).
Proof.
  intros Hm Hh s. unfold try_except.
  destruct (Hm s) as (evs1 & E1 & F1).
  destruct (m s) as [[a | e] s1]; simpl in E1.
  - by exists evs1.
  - destruct (Hh e s1) as (evs2 & E2 & F2).
    exists (evs1 ++ evs2)%list. split.
    + by rewrite E2, E1, app_assoc.
    + by apply Forall_app.
Qed.

End Emits.

Section Properties.
Context `{Externals}.

Section EmitsWorld.
Context (P : Event → Prop).

Lemma emits_emit ev : P ev → emits_only trace P (emit ev).
Proof. intros Hev w. exists [ev]. split; [done | by constructor]. Qed.

Lemma emits_log lvl msg :
  P (ELog lvl msg) → emits_only trace P (log lvl msg).
Proof. apply emits_emit. Qed.

Lemma emits_outside {A} (f : Ext → Res A * Ext) :
  emits_only trace P (outside f).
Proof.
  intros w. exists []. unfold outside.
  destruct (f (ext w)) as [r x]. simpl. by rewrite app_nil_r.
Qed.

Lemma emits_call_ib r : P (EIB r) → emits_only trace P (call_ib r).
Proof.
  intros Hr. apply emits_bind; [by apply emits_emit |].
  intros _. apply emits_outside.
Qed.

Lemma emits_now : (∀ t, P (ENow t)) → emits_only trace P now.
Proof.
  intros Ht. apply emits_bind; [apply emits_outside |].
  intros t. apply emits_bind; [by apply emits_emit |].
  intros _. apply emits_ret.
Qed.

Lemma emits_sleep secs : P (ESleep secs) → emits_only trace P (sleep secs).
Proof.
  intros Hs. apply emits_bind; [by apply emits_emit |].
  intros _. apply emits_outside.
Qed.

Lemma emits_liftW {A} (m : Proc A) :
  emits_only trace P m → emits_only mtrace P (liftW m).
Proof.
  intros Hm [c w]. destruct (Hm w) as (evs & E & F).
  exists evs. unfold liftW, mtrace.
  destruct (m w) as [r w']. simpl in *. done.
Qed.

Lemma emits_set_self_connected b :
  emits_only mtrace P (set_self_connected b).
Proof. intros [c w]. exists []. unfold mtrace. simpl. by rewrite app_nil_r. Qed.

Lemma emits_with_self {A} c (m : Meth A) :
  emits_only mtrace P m → emits_only trace P (with_self c m).
Proof.
  intros Hm w. destruct (Hm (c, w)) as (evs & E & F).
  exists evs. unfold with_self, mtrace in *.
  destruct (m (c, w)) as [r [c' w']]. simpl in *. done.
Qed.

End EmitsWorld.

Ltac emits :=
  repeat first
    [ progress intros
    | done
    | apply emits_ret | apply emits_raise | apply emits_gets
    | apply emits_of_res
    | apply emits_liftW | apply emits_set_self_connected
    | apply emits_log | apply emits_call_ib | apply emits_now
    | apply emits_sleep | apply emits_outside | apply emits_with_self
    | apply emits_bind | apply emits_try_except
    | match goal with
      | |- emits_only _ _ (if ?b then _ else _) => destruct b
      | |- emits_only _ _ (match ?x with _ => _ end) => destruct x
      end ].

Lemma ensure_connected_no_fetch : emits_only mtrace no_fetch ensure_connected.
Proof. unfold ensure_connected, connect. emits. Qed.

Lemma get_ibkr_connection_no_fetch :
  emits_only trace no_fetch get_ibkr_connection.
Proof.
  unfold get_ibkr_connection, IBKRConnection_init, get_config. emits.
  all: by apply emits_modify.
Qed.

Lemma get_ibkr_data_in_range_no_fetch ticker start_date end_date data_type kwargs :
  emits_only trace no_fetch
    (get_ibkr_data_in_range ticker start_date end_date data_type kwargs).
Proof.
  unfold get_ibkr_data_in_range.
  apply emits_bind; [apply get_ibkr_connection_no_fetch |].
  intros conn. apply emits_with_self.
  pose proof ensure_connected_no_fetch.
  unfold get_news_articles, get_historical_data, get_fundamentals,
    get_company_info, get_real_time_data.
  emits.
Qed.

(** ** The manager: one request *)

Section Request.
Variable self : DataSourceManager.
Variables ticker start_date end_date data_type : string.
Variables data_dir period : option string.
Variable kwargs : gmap string Any.

(** The functions at the request of the section: [fetch_by src] is the
    fetch of provider [src], [call_by src] the record it leaves, and
    [get_data_in_range'] is [get_data_in_range] of [self] with the
    arguments above. *)
Local Abbreviation fetch_by src :=
  (fetch src ticker start_date end_date data_type data_dir period kwargs).
Local Abbreviation call_by src :=
  (fetch_call src ticker start_date end_date data_type data_dir period kwargs).
Local Abbreviation fallback_run perr w :=
  (fallback_run self ticker start_date end_date data_type data_dir period
     kwargs perr w).
Local Abbreviation get_data_in_range' :=
  (get_data_in_range self ticker start_date end_date data_type data_dir
     period kwargs).

Lemma log_run lvl msg (w : World) : log lvl msg w = (Ok tt, logged lvl msg w).
Proof. reflexivity. Qed.

Lemma primary_fetch_eq :
  (if String.eqb (primary_source self) "ibkr"
   then _get_ibkr_data ticker start_date end_date data_type kwargs
   else _get_finnhub_data ticker start_date end_date data_type data_dir period)
  = fetch_by (primary self).
Proof. unfold primary. by destruct (String.eqb _ _). Qed.

Lemma secondary_fetch_eq :
  (if String.eqb (fallback_source self) "ibkr"
   then _get_ibkr_data ticker start_date end_date data_type kwargs
   else _get_finnhub_data ticker start_date end_date data_type data_dir period)
  = fetch_by (secondary self).
Proof.
  unfold secondary, primary, fallback_source.
  by destruct (String.eqb (primary_source self) "ibkr").
Qed.

(** A request, step by step, in terms of the two fetches. *)
Lemma get_data_in_range_run (w : World) :
  get_data_in_range' w =
  match fetch_by (primary self) w with
  | (Ok d, w1) =>
    if dict_truthy d
    then (Ok d, logged INFO ("Successfully fetched data from "
                               ++ primary_source self) w1)
    else if enable_fallback self then fallback_run None w1
    else (Ok ∅, w1)
  | (Err e, w1) =>
    let w1' := logged WARNING ("Failed to fetch data from "
                                 ++ primary_source self ++ ": " ++ exn_str e)
                 w1 in
    if enable_fallback self then fallback_run (Some e) w1'
    else (Err e, w1')
  end.
Proof.
  unfold get_data_in_range, fallback_run.
  fold (fallback_source self).
  rewrite primary_fetch_eq, secondary_fetch_eq.
  unfold mbind, M_bind, bind, try_except, mret, M_ret, ret.
  destruct (fetch_by (primary self) w) as [[d | e] w1]; simpl.
  - destruct (dict_truthy d) eqn:Ed; simpl; [done |].
    destruct (enable_fallback self); simpl; [| done].
    unfold not_data; rewrite Ed; simpl.
    destruct (fetch_by (secondary self) _) as [[d2 | e2] w3]; simpl; [| done].
    by destruct (dict_truthy d2).
  - destruct (enable_fallback self); simpl; [| done].
    destruct (fetch_by (secondary self) _) as [[d2 | e2] w3]; simpl; [| done].
    by destruct (dict_truthy d2).
Qed.

(** *** The fetches a request makes *)

Lemma fetches_of_app src (l1 l2 : list Event) :
  fetches_of src (l1 ++ l2) = (fetches_of src l1 ++ fetches_of src l2)%list.
Proof. apply omap_app. Qed.

Lemma fetches_of_no_fetch src (evs : list Event) :
  Forall no_fetch evs → fetches_of src evs = [].
Proof.
  induction 1 as [| ev evs Hev _ IH]; [done |].
  destruct ev; try exact IH. discriminate Hev.
Qed.

Lemma fetches_of_logged src lvl msg (w : World) :
  fetches_of src (trace (logged lvl msg w)) = fetches_of src (trace w).
Proof. simpl. rewrite fetches_of_app. simpl. by rewrite app_nil_r. Qed.

Lemma fetch_source_call src : fetch_source (call_by src) = src.
Proof. by destruct src. Qed.

(** A fetch leaves its own record and no other. *)
Lemma fetch_trace src (w : World) :
  ∃ evs, trace (fetch_by src w).2
         = (trace w ++ EFetch (call_by src) :: evs)%list
         ∧ Forall no_fetch evs.
Proof.
  destruct src; simpl.
  - unfold _get_ibkr_data, mbind, M_bind, bind. simpl.
    destruct (get_ibkr_data_in_range_no_fetch ticker start_date end_date
                data_type kwargs
                (set_trace (trace w ++ [EFetch (IbkrCall ticker start_date
                   end_date data_type kwargs)]) w)) as (evs & E & F).
    exists evs. split; [| done].
    rewrite E. simpl. by rewrite <- app_assoc.
  - exists []. split; [| done].
    unfold _get_finnhub_data, mbind, M_bind, bind, outside. simpl.
    by destruct (get_finnhub_data_in_range _ _ _ _ _ _ _).
Qed.

Lemma fetches_after_fetch src src' (w : World) :
  fetches_of src' (trace (fetch_by src w).2)
  = (fetches_of src' (trace w)
     ++ if decide (src = src') then [call_by src] else [])%list.
Proof.
  destruct (fetch_trace src w) as (evs & -> & F).
  rewrite fetches_of_app. f_equal.
  change (EFetch (call_by src) :: evs) with ([EFetch (call_by src)] ++ evs)%list.
  rewrite fetches_of_app, (fetches_of_no_fetch _ evs F), app_nil_r.
  unfold fetches_of. simpl. rewrite fetch_source_call.
  by destruct (decide (src = src')).
Qed.

Lemma secondary_neq_primary : primary self ≠ secondary self.
Proof. unfold secondary. by destruct (primary self). Qed.

Lemma dict_truthy_true (d : Result) : d ≠ ∅ → dict_truthy d = true.
Proof. intros Hd. unfold dict_truthy. by rewrite bool_decide_eq_false_2. Qed.

Lemma dict_truthy_empty : dict_truthy (∅ : Result) = false.
Proof. done. Qed.

(** What a request adds to the fetches of a provider, read off
    the step-by-step form. *)
Lemma fallback_run_fetches src perr (w : World) :
  fetches_of src (trace (fallback_run perr w).2)
  = (fetches_of src (trace w)
     ++ if decide (secondary self = src) then [call_by (secondary self)]
        else [])%list.
Proof.
  unfold fallback_run.
  pose proof (fetches_after_fetch (secondary self) src
                (logged INFO ("Attempting fallback to " ++ fallback_source self)
                   w)) as Hf.
  rewrite fetches_of_logged in Hf.
  destruct (fetch_by (secondary self) _) as [[d | e] w']; simpl in Hf.
  - destruct (dict_truthy d).
    + cbn [snd]. by rewrite fetches_of_logged.
    + by destruct perr.
  - destruct perr; cbn [snd after_fallback]; by rewrite fetches_of_logged.
Qed.

(** C1: when the fetch of the primary provider returns a non-empty
    result, the request returns that very result (after one log
    record) and makes no fetch of the secondary provider; the
    fallback switch plays no part. *)
Theorem primary_success_is_returned (w : World) d w1 :
  fetch_by (primary self) w = (Ok d, w1) →
  d ≠ ∅ →
  get_data_in_range' w
  = (Ok d, logged INFO ("Successfully fetched data from "
                          ++ primary_source self) w1)
  ∧ fetches_of (secondary self) (trace (get_data_in_range' w).2)
    = fetches_of (secondary self) (trace w).
Proof.
  intros Hp Hd.
  pose proof (fetches_after_fetch (primary self) (secondary self) w) as Hf.
  rewrite get_data_in_range_run. rewrite Hp in *.
  rewrite (dict_truthy_true d Hd). split; [done |].
  simpl in *. rewrite fetches_of_app, Hf. simpl.
  rewrite decide_False by apply secondary_neq_primary.
  by rewrite !app_nil_r.
Qed.

(** C2: when the primary's fetch raises, fallback is enabled and the
    secondary's fetch raises too, the request raises the primary's
    exception; the secondary's only shows in the log. *)
Theorem both_fail_primary_error_raised (w : World) e1 w1 e2 w2 :
  enable_fallback self = true →
  fetch_by (primary self) w = (Err e1, w1) →
  fetch_by (secondary self)
    (logged INFO ("Attempting fallback to " ++ fallback_source self)
       (logged WARNING ("Failed to fetch data from " ++ primary_source self
                          ++ ": " ++ exn_str e1) w1))
  = (Err e2, w2) →
  get_data_in_range' w
  = (Err e1, logged WARNING ("Fallback also failed: " ++ exn_str e2) w2).
Proof.
  intros Hfb Hp Hs.
  rewrite get_data_in_range_run, Hp, Hfb. simpl.
  unfold fallback_run. by rewrite Hs.
Qed.

(** C3: when the primary's fetch returns an empty result and fallback
    is enabled, the secondary is fetched from (once, with the
    arguments of the request); and when that fetch returns an empty
    result or raises, the request returns an empty dict. *)
Theorem empty_primary_falls_back (w : World) w1 :
  enable_fallback self = true →
  fetch_by (primary self) w = (Ok ∅, w1) →
  let w1' := logged INFO ("Attempting fallback to " ++ fallback_source self)
               w1 in
  fetches_of (secondary self) (trace (get_data_in_range' w).2)
  = (fetches_of (secondary self) (trace w) ++ [call_by (secondary self)])%list
  ∧ (∀ w2, fetch_by (secondary self) w1' = (Ok ∅, w2) →
           get_data_in_range' w = (Ok ∅, w2))
  ∧ (∀ e2 w2, fetch_by (secondary self) w1' = (Err e2, w2) →
              get_data_in_range' w
              = (Ok ∅, logged WARNING ("Fallback also failed: " ++ exn_str e2)
                         w2)).
Proof.
  intros Hfb Hp w1'.
  pose proof (fetches_after_fetch (primary self) (secondary self) w) as Hf.
  rewrite get_data_in_range_run. rewrite Hp in *.
  rewrite dict_truthy_empty, Hfb. simpl in Hf.
  rewrite decide_False, app_nil_r in Hf by apply secondary_neq_primary.
  split; [| split].
  - rewrite fallback_run_fetches, Hf. by rewrite decide_True.
  - intros w2 Hs. unfold fallback_run. fold w1'. by rewrite Hs.
  - intros e2 w2 Hs. unfold fallback_run. fold w1'. by rewrite Hs.
Qed.

(** C4: when the primary's fetch raises and fallback is enabled, the
    secondary is fetched from exactly once, with the ticker, the
    dates and the kind of the request; a non-empty result of that
    fetch is what the request returns. *)
Theorem primary_error_falls_back (w : World) e1 w1 :
  enable_fallback self = true →
  fetch_by (primary self) w = (Err e1, w1) →
  let w1' := logged INFO ("Attempting fallback to " ++ fallback_source self)
               (logged WARNING ("Failed to fetch data from "
                                  ++ primary_source self ++ ": " ++ exn_str e1)
                  w1) in
  fetches_of (secondary self) (trace (get_data_in_range' w).2)
  = (fetches_of (secondary self) (trace w) ++ [call_by (secondary self)])%list
  ∧ (∀ d w2, fetch_by (secondary self) w1' = (Ok d, w2) → d ≠ ∅ →
             get_data_in_range' w
             = (Ok d, logged INFO
                        ("Successfully fetched data from fallback source: "
                           ++ fallback_source self) w2)).
Proof.
  intros Hfb Hp w1'.
  pose proof (fetches_after_fetch (primary self) (secondary self) w) as Hf.
  rewrite get_data_in_range_run. rewrite Hp in *.
  rewrite Hfb. simpl in Hf.
  rewrite decide_False, app_nil_r in Hf by apply secondary_neq_primary.
  split.
  - cbv zeta. rewrite fallback_run_fetches, fetches_of_logged, Hf.
    by rewrite decide_True.
  - intros d w2 Hs Hd. cbv zeta. unfold fallback_run. fold w1'.
    by rewrite Hs, (dict_truthy_true d Hd).
Qed.

(** C5: when fallback is disabled and the primary's fetch raises, the
    request raises the primary's exception and makes no fetch of the
    secondary provider. *)
Theorem no_fallback_primary_error_raised (w : World) e1 w1 :
  enable_fallback self = false →
  fetch_by (primary self) w = (Err e1, w1) →
  get_data_in_range' w
  = (Err e1, logged WARNING ("Failed to fetch data from "
                               ++ primary_source self ++ ": " ++ exn_str e1)
               w1)
  ∧ fetches_of (secondary self) (trace (get_data_in_range' w).2)
    = fetches_of (secondary self) (trace w).
Proof.
  intros Hfb Hp.
  pose proof (fetches_after_fetch (primary self) (secondary self) w) as Hf.
  rewrite get_data_in_range_run. rewrite Hp in *.
  rewrite Hfb. split; [done |].
  cbv zeta. cbn [snd]. rewrite fetches_of_logged. simpl in Hf. rewrite Hf.
  rewrite decide_False by apply secondary_neq_primary.
  by rewrite app_nil_r.
Qed.

(** C6: a request fetches from the primary provider exactly once and
    from the secondary provider at most once. *)
Theorem fetched_once_each (w : World) :
  fetches_of (primary self) (trace (get_data_in_range' w).2)
  = (fetches_of (primary self) (trace w) ++ [call_by (primary self)])%list
  ∧ (fetches_of (secondary self) (trace (get_data_in_range' w).2)
     = fetches_of (secondary self) (trace w)
     ∨ fetches_of (secondary self) (trace (get_data_in_range' w).2)
       = (fetches_of (secondary self) (trace w)
          ++ [call_by (secondary self)])%list).
Proof.
  pose proof (fetches_after_fetch (primary self) (primary self) w) as Hpp.
  pose proof (fetches_after_fetch (primary self) (secondary self) w) as Hps.
  rewrite decide_True in Hpp by done.
  rewrite decide_False, app_nil_r in Hps by apply secondary_neq_primary.
  assert (Hne : secondary self ≠ primary self)
    by (intros E; by apply secondary_neq_primary).
  rewrite get_data_in_range_run.
  destruct (fetch_by (primary self) w) as [[d | e] w1]; simpl in Hpp, Hps.
  - destruct (dict_truthy d).
    + cbn [snd]. rewrite !fetches_of_logged. auto.
    + destruct (enable_fallback self); [| auto].
      rewrite !fallback_run_fetches, Hpp, Hps.
      rewrite decide_False, decide_True, app_nil_r by done. auto.
  - cbv zeta. destruct (enable_fallback self).
    + rewrite !fallback_run_fetches, !fetches_of_logged, Hpp, Hps.
      rewrite decide_False, decide_True, app_nil_r by done. auto.
    + cbn [snd]. rewrite !fetches_of_logged. auto.
Qed.

End Request.

(** ** ibkr_utils: the data kinds *)

Lemma world_eta_connection (w : World) c :
  _ibkr_connection w = c → set_ibkr_connection c w = w.
Proof. destruct w. simpl. by intros ->. Qed.

Lemma world_eta_manager (w : World) m :
  _data_source_manager w = m → set_data_source_manager m w = w.
Proof. destruct w. simpl. by intros ->. Qed.

Lemma get_ibkr_connection_run (w : World) :
  ∃ conn, get_ibkr_connection w = (Ok conn, set_ibkr_connection (Some conn) w).
Proof.
  unfold get_ibkr_connection, mbind, M_bind, bind. simpl.
  destruct (_ibkr_connection w) as [c |] eqn:E.
  - exists c. by rewrite world_eta_connection.
  - by eexists.
Qed.

(** C7: for a data kind other than the five the function knows, it
    logs one warning and returns the empty dict; the gateway is not
    contacted, and the only other effect is that the connection
    object exists afterwards. *)
Theorem unknown_kind_warns_and_returns_empty
    ticker start_date end_date data_type kwargs (w : World) :
  data_type ∉ data_kinds →
  ∃ conn,
    get_ibkr_connection w = (Ok conn, set_ibkr_connection (Some conn) w)
    ∧ get_ibkr_data_in_range ticker start_date end_date data_type kwargs w
      = (Ok ∅, logged WARNING ("Unknown data type: " ++ data_type)
                 (set_ibkr_connection (Some conn) w)).
Proof.
  intros Hk. unfold data_kinds in Hk.
  rewrite !not_elem_of_cons in Hk.
  destruct Hk as (H1 & H2 & H3 & H4 & H5 & _).
  destruct (get_ibkr_connection_run w) as [conn Hc].
  exists conn. split; [done |].
  unfold get_ibkr_data_in_range, mbind, M_bind, bind. rewrite Hc.
  apply String.eqb_neq in H1, H2, H3, H4, H5.
  unfold with_self, try_except. rewrite H1, H2, H3, H4, H5.
  reflexivity.
Qed.

(** ** Cleanup *)

Lemma cleanup_ibkr_connection_run (w : World) :
  ∃ w1, cleanup_ibkr_connection w = (Ok tt, set_ibkr_connection None w1).
Proof.
  unfold cleanup_ibkr_connection, mbind, M_bind, bind. simpl.
  destruct (_ibkr_connection w) as [c |] eqn:E.
  - unfold try_except.
    destruct (asyncio_run (with_self c disconnect) w) as [[[] | e] w1];
      by eexists.
  - exists w. by rewrite world_eta_connection.
Qed.

Lemma cleanup_ibkr_connection_unset (w : World) :
  _ibkr_connection w = None → cleanup_ibkr_connection w = (Ok tt, w).
Proof.
  intros E. unfold cleanup_ibkr_connection, mbind, M_bind, bind. simpl.
  by rewrite E.
Qed.

Lemma cleanup_data_sources_run (w : World) :
  ∃ w1, cleanup_data_sources w = (Ok tt, set_data_source_manager None w1)
        ∧ (is_Some (_data_source_manager w) → _ibkr_connection w1 = None).
Proof.
  unfold cleanup_data_sources, mbind, M_bind, bind. simpl.
  destruct (_data_source_manager w) as [m |] eqn:E.
  - unfold cleanup, try_except.
    destruct (cleanup_ibkr_connection_run w) as [w1 ->]. by eexists.
  - exists w. rewrite world_eta_manager by done.
    split; [done | by intros [? [=]]].
Qed.

Lemma cleanup_data_sources_unset (w : World) :
  _data_source_manager w = None → cleanup_data_sources w = (Ok tt, w).
Proof.
  intros E. unfold cleanup_data_sources, mbind, M_bind, bind. simpl.
  by rewrite E.
Qed.

(** C8: with nothing to release the two cleanup functions do nothing
    and raise nothing; from any world they return normally and leave
    their handle unset ([cleanup_data_sources] also the connection's,
    when there was a manager), and a second call right after changes
    nothing. *)
Theorem cleanup_is_idempotent (w : World) :
  cleanup_ibkr_connection (set_ibkr_connection None w)
  = (Ok tt, set_ibkr_connection None w)
  ∧ cleanup_data_sources (set_data_source_manager None w)
    = (Ok tt, set_data_source_manager None w)
  ∧ (∃ w', cleanup_ibkr_connection w = (Ok tt, w')
           ∧ _ibkr_connection w' = None
           ∧ cleanup_ibkr_connection w' = (Ok tt, w'))
  ∧ (∃ w', cleanup_data_sources w = (Ok tt, w')
           ∧ _data_source_manager w' = None
           ∧ (is_Some (_data_source_manager w) → _ibkr_connection w' = None)
           ∧ cleanup_data_sources w' = (Ok tt, w')).
Proof.
  split; [by apply cleanup_ibkr_connection_unset |].
  split; [by apply cleanup_data_sources_unset |].
  split.
  - destruct (cleanup_ibkr_connection_run w) as [w1 ->].
    eexists. split; [done |]. split; [done |].
    by apply cleanup_ibkr_connection_unset.
  - destruct (cleanup_data_sources_run w) as (w1 & -> & Hconn).
    eexists. split; [done |]. split; [done |]. split; [done |].
    by apply cleanup_data_sources_unset.
Qed.

(** ** The keys of what get_ibkr_data_in_range returns *)

Lemma returns_ret {S A} (Q : A → Prop) (a : A) :
  Q a → returns_only (S := S) Q (mret a).
Proof. intros Ha s a' s' [= <- _]. done. Qed.

Lemma returns_raise {S A} (Q : A → Prop) e : returns_only (S := S) Q (raise e).
Proof. intros s a s' [=]. Qed.

Lemma returns_bind {S A B} (Q : B → Prop) (m : M S A) (k : A → M S B) :
  (∀ a, returns_only Q (k a)) → returns_only Q (m ≫= k).
Proof.
  intros Hk s b s'. unfold mbind, M_bind, bind.
  destruct (m s) as [[a | e] s1]; [apply Hk | intros [=]].
Qed.

Lemma returns_try_except {S A} (Q : A → Prop) (m : M S A) h :
  returns_only Q m → (∀ e, returns_only Q (h e)) →
  returns_only Q (try_except m h).
Proof.
  intros Hm Hh s a s'. unfold try_except.
  destruct (m s) as [[a1 | e] s1] eqn:E.
  - intros [= <- <-]. by eapply Hm.
  - apply Hh.
Qed.

Lemma returns_with_self {A} (Q : A → Prop) c (m : Meth A) :
  returns_only Q m → returns_only Q (with_self c m).
Proof.
  intros Hm w a w'. unfold with_self.
  destruct (m (c, w)) as [r [c' w1]] eqn:E.
  intros [= -> _]. by eapply Hm.
Qed.

Lemma leb_refl (s : string) : String.leb s s = true.
Proof.
  unfold String.leb.
  assert (E : String.compare s s = Eq); [| by rewrite E].
  induction s as [| a s IH]; [done |]. simpl.
  assert (Ea : Ascii.compare a a = Eq); [| by rewrite Ea].
  unfold Ascii.compare. apply N.compare_refl.
Qed.

Lemma in_range_spec start_date end_date k :
  in_range start_date end_date k = true
  ↔ String.leb start_date k = true ∧ String.leb k end_date = true.
Proof. unfold in_range. apply andb_true_iff. Qed.

Lemma group_articles_dom start_date end_date articles k :
  k ∈ dom (group_articles start_date end_date articles) →
  in_range start_date end_date k = true.
Proof.
  unfold group_articles.
  assert (Hinv : ∀ acc : gmap string (list Article),
    (∀ k, k ∈ dom acc → in_range start_date end_date k = true) →
    ∀ k, k ∈ dom (foldl (λ grouped_data article,
             let date_str := strftime_ymd (art_time article) in
             if in_range start_date end_date date_str
             then <[date_str := (default [] (grouped_data !! date_str)
                                   ++ [article])%list]> grouped_data
             else grouped_data) acc articles) →
         in_range start_date end_date k = true).
  { induction articles as [| a articles IH]; intros acc Hacc k'; [apply Hacc |].
    simpl. apply IH. intros k2.
    destruct (in_range start_date end_date (strftime_ymd (art_time a))) eqn:E;
      [| apply Hacc].
    rewrite dom_insert_L, elem_of_union, elem_of_singleton.
    intros [-> | Hk2]; [done | by apply Hacc]. }
  apply Hinv. intros k'. by rewrite dom_empty_L, elem_of_empty.
Qed.

Lemma filter_rows_in_range start_date end_date dated k row :
  (k, row) ∈ filter_rows start_date end_date dated →
  in_range start_date end_date k = true.
Proof.
  unfold filter_rows. rewrite list_elem_of_omap.
  intros ([d row'] & _ & Hx).
  destruct d as [date_str |]; [| done].
  destruct (in_range start_date end_date date_str) eqn:E; [| done].
  by injection Hx as -> _.
Qed.

Lemma group_rows_dom (rows : list (string * BarData)) k :
  k ∈ dom (group_rows rows) → ∃ row, (k, row) ∈ rows.
Proof.
  unfold group_rows.
  assert (Hinv : ∀ acc : Result,
    (∀ k, k ∈ dom acc → ∃ row, (k, row) ∈ rows) →
    ∀ l, l ⊆ rows →
    ∀ k, k ∈ dom (foldl (λ grouped_data '(date_str, row),
                           <[date_str := row_to_dict date_str row]> grouped_data)
                    acc l) →
         ∃ row, (k, row) ∈ rows).
  { intros acc Hacc l. revert acc Hacc.
    induction l as [| [d row] l IH]; intros acc Hacc Hl k'; [apply Hacc |].
    simpl. apply IH; [| intros x Hx; apply Hl; by right].
    intros k2. rewrite dom_insert_L, elem_of_union, elem_of_singleton.
    intros [-> | Hk2]; [| by apply Hacc].
    exists row. apply Hl. by left. }
  apply (Hinv ∅); [| done].
  intros k'. by rewrite dom_empty_L, elem_of_empty.
Qed.

Lemma keyed_by_dom end_date d k :
  k ∈ dom (keyed_by end_date d) → k = end_date.
Proof.
  unfold keyed_by. destruct (list_truthy d).
  - rewrite dom_singleton_L. by intros ->%elem_of_singleton.
  - by rewrite dom_empty_L, elem_of_empty.
Qed.

Ltac returns :=
  repeat first
    [ progress intros
    | apply returns_raise
    | apply returns_bind
    | apply returns_try_except
    | match goal with
      | |- returns_only _ (if ?b then _ else _) => destruct b eqn:?
      | |- returns_only _ (match ?x with _ => _ end) => destruct x
      end ].

(** C9: when the start date is not after the end date (as Python
    compares the two strings), every key of a dict returned by
    [get_ibkr_data_in_range] lies between the two, bounds included;
    and for fundamentals, company_info and real_time the only key
    there can be is the end date. *)
Theorem returned_keys_in_range
    ticker start_date end_date data_type kwargs (w : World) r w' :
  String.leb start_date end_date = true →
  get_ibkr_data_in_range ticker start_date end_date data_type kwargs w
  = (Ok r, w') →
  (∀ k, k ∈ dom r →
        String.leb start_date k = true ∧ String.leb k end_date = true)
  ∧ (data_type ∈ snapshot_kinds → ∀ k, k ∈ dom r → k = end_date).
Proof.
  intros Hle Hrun.
  assert (Hnews : ∀ articles,
    key_in_range start_date end_date
      (news_result (group_articles start_date end_date articles))).
  { intros articles k. unfold news_result. rewrite dom_fmap_L.
    intros Hk%group_articles_dom. by apply in_range_spec. }
  assert (Hrows : ∀ dated,
    key_in_range start_date end_date
      (group_rows (filter_rows start_date end_date dated))).
  { intros dated k [row Hk%filter_rows_in_range]%group_rows_dom.
    by apply in_range_spec. }
  assert (Hkeyed : ∀ d, key_in_range start_date end_date (keyed_by end_date d)).
  { intros d k ->%keyed_by_dom. split; [done | apply leb_refl]. }
  assert (Hempty : key_in_range start_date end_date ∅).
  { intros k. by rewrite dom_empty_L, elem_of_empty. }
  split.
  - revert w r w' Hrun.
    change (returns_only (key_in_range start_date end_date)
              (get_ibkr_data_in_range ticker start_date end_date data_type
                 kwargs)).
    unfold get_ibkr_data_in_range.
    apply returns_bind. intros conn. apply returns_with_self.
    returns; by apply returns_ret.
  - intros Hkind. unfold snapshot_kinds in Hkind.
    revert w r w' Hrun.
    change (returns_only (λ r : Result, ∀ k, k ∈ dom r → k = end_date)
              (get_ibkr_data_in_range ticker start_date end_date data_type
                 kwargs)).
    unfold get_ibkr_data_in_range.
    apply returns_bind. intros conn. apply returns_with_self.
    assert (Hk : ∀ d k, k ∈ dom (keyed_by end_date d) → k = end_date)
      by (intros d k; apply keyed_by_dom).
    assert (He : ∀ k : string, k ∈ dom (∅ : Result) → k = end_date)
      by (intros k; by rewrite dom_empty_L, elem_of_empty).
    apply returns_try_except; [| returns].
    destruct (String.eqb data_type "news") eqn:E1.
    { apply String.eqb_eq in E1. exfalso. revert Hkind.
      rewrite E1, !elem_of_cons, elem_of_nil.
      by intros [? | [? | [? | []]]]. }
    destruct (String.eqb data_type "historical") eqn:E2.
    { apply String.eqb_eq in E2. exfalso. revert Hkind.
      rewrite E2, !elem_of_cons, elem_of_nil.
      by intros [? | [? | [? | []]]]. }
    returns; apply returns_ret; eauto.
Qed.

(** ** The window of a news query *)

Lemma anchored_quiet days_back evs :
  Forall no_news_query evs → anchored days_back evs.
Proof.
  intros F pre post cid codes from to total ->.
  apply Forall_app in F as [_ F]. apply Forall_cons in F as [F _].
  discriminate F.
Qed.

Lemma anchored_app days_back l1 l2 :
  anchored days_back l1 → anchored days_back l2 →
  anchored days_back (l1 ++ l2).
Proof.
  intros H1 H2 pre post cid codes from to total E.
  apply app_eq_app in E as [l [[-> E] | [-> E]]].
  - destruct l as [| q l].
    + simpl in E. symmetry in E.
      destruct (H2 [] _ _ _ _ _ _ E) as (? & pre' & t1 & Hpre & _).
      by destruct pre' as [| ? [| ? ?]].
    + injection E as <- ->. by eapply H1.
  - destruct (H2 _ _ _ _ _ _ _ E) as (? & pre' & t1 & -> & ?).
    split; [done |]. exists (l1 ++ pre')%list, t1.
    by rewrite app_assoc.
Qed.

Lemma datetime_sub_days_Ok t days from :
  datetime_sub_days t days = Ok from → from = days_before t days.
Proof.
  unfold datetime_sub_days. cbv zeta. destruct (_ && _); by intros [= <-].
Qed.

Lemma anchored_query days_back t1 cid codes to :
  anchored days_back
    [ENow t1; ENow to;
     EIB (reqHistoricalNewsAsync cid codes (days_before t1 days_back) to 100)].
Proof.
  intros pre post cid' codes' from' to' total E.
  destruct pre as [| a [| b [| c pre]]]; simpl in E; try discriminate E.
  - simplify_eq. split; [done |]. by exists [], t1.
  - injection E as _ _ _ E. by destruct pre.
Qed.

Lemma ensure_connected_no_news_query :
  emits_only mtrace no_news_query ensure_connected.
Proof. unfold ensure_connected, connect. emits. Qed.

Lemma meth_bind_run {A B} (m : Meth A) (k : A → Meth B) s :
  (m ≫= k) s = match m s with
               | (Ok a, s') => k a s'
               | (Err e, s') => (Err e, s')
               end.
Proof. reflexivity. Qed.

Lemma proc_bind_run {A B} (m : Proc A) (k : A → Proc B) w :
  (m ≫= k) w = match m w with
               | (Ok a, w') => k a w'
               | (Err e, w') => (Err e, w')
               end.
Proof. reflexivity. Qed.

Lemma liftW_call_ib_run r c (w : World) :
  liftW (call_ib r) (c, w)
  = let '(a, x) := ib r (ext w) in
    (a, (c, set_ext x (set_trace (trace w ++ [EIB r]) w))).
Proof.
  unfold liftW, call_ib, mbind, M_bind, bind, outside. simpl.
  by destruct (ib r (ext w)).
Qed.

Lemma liftW_now_run c (w : World) :
  liftW now (c, w)
  = let '(t, x) := datetime_now (ext w) in
    (Ok t, (c, set_trace (trace w ++ [ENow t]) (set_ext x w))).
Proof.
  unfold liftW, now, mbind, M_bind, bind, outside. simpl.
  by destruct (datetime_now (ext w)).
Qed.

Lemma timedelta_Ok days delta : timedelta days = Ok delta → delta = days.
Proof. unfold timedelta. destruct (_ <=? _); by intros [=]. Qed.

Lemma anchored_cons_quiet days_back ev evs :
  no_news_query ev → anchored days_back evs → anchored days_back (ev :: evs).
Proof.
  intros Hev Hevs. apply (anchored_app _ [ev]); [| done].
  apply anchored_quiet. by constructor.
Qed.

Lemma anchored_query_then days_back t1 cid codes to rest :
  Forall no_news_query rest →
  anchored days_back
    (ENow t1 :: ENow to
       :: EIB (reqHistoricalNewsAsync cid codes (days_before t1 days_back) to
                 100)
       :: rest).
Proof.
  intros Hrest.
  apply (anchored_app _ [_; _; _]);
    [by apply anchored_query | by apply anchored_quiet].
Qed.

Ltac news_leaf E0 :=
  eexists; split;
  [ simpl; rewrite E0, <- ?app_assoc; reflexivity
  | split;
    [ apply anchored_app; [by apply anchored_quiet |]
    | intros Hq ? [= <-] ] ].

Lemma get_news_articles_spec ticker days_back s r s' :
  get_news_articles ticker days_back s = (r, s') →
  news_post days_back (mtrace s) r (mtrace s').
Proof.
  unfold get_news_articles. rewrite meth_bind_run.
  destruct (ensure_connected_no_news_query s) as (evs0 & E0 & F0).
  destruct (ensure_connected s) as [[[] | e0] [c1 w1]]; unfold mtrace in *;
    simpl in E0.
  2: { intros [= <- <-]. exists evs0. split; [done |].
       split; [by apply anchored_quiet | done]. }
  rewrite meth_bind_run, liftW_call_ib_run.
  destruct (ib _ (ext w1)) as [[[| detail details] | e1] x1].
  - intros [= <- <-]. news_leaf E0; [| done].
    apply anchored_quiet. by repeat constructor.
  - unfold try_except. rewrite meth_bind_run, liftW_call_ib_run. simpl.
    destruct (ib reqNewsProvidersAsync x1) as [[[| provider ?] | e2] x2].
    + intros [= <- <-]. news_leaf E0; [| done].
      apply anchored_quiet. by repeat constructor.
    + rewrite meth_bind_run, liftW_now_run. simpl.
      destruct (datetime_now x2) as [t1 x3].
      rewrite meth_bind_run. unfold of_res at 1.
      destruct (timedelta days_back) as [delta | e3] eqn:Ed.
      2: { intros [= <- <-]. news_leaf E0; [| done].
           apply anchored_quiet. by repeat constructor. }
      apply timedelta_Ok in Ed as ->.
      rewrite meth_bind_run. unfold of_res at 1.
      destruct (datetime_sub_days t1 days_back) as [from | e4] eqn:Es.
      2: { intros [= <- <-]. news_leaf E0; [| done].
           apply anchored_quiet. by repeat constructor. }
      apply datetime_sub_days_Ok in Es as ->.
      rewrite meth_bind_run, liftW_now_run. simpl.
      destruct (datetime_now x3) as [to x4].
      rewrite meth_bind_run,
        (liftW_call_ib_run (reqHistoricalNewsAsync _ _ _ _ _)). simpl.
      destruct (ib (reqHistoricalNewsAsync _ _ _ to 100) x4)
        as [[answer | e5] x5] eqn:Ea.
      * intros [= <- <-]. news_leaf E0.
        -- do 2 (apply anchored_cons_quiet; [done |]).
           by apply anchored_query_then.
        -- apply Forall_app in Hq as [_ Hq].
           do 4 apply Forall_cons in Hq as [_ Hq].
           apply Forall_cons in Hq as [Hq _]. discriminate Hq.
      * intros [= <- <-]. news_leaf E0; [| done].
        do 2 (apply anchored_cons_quiet; [done |]).
        apply anchored_query_then. by repeat constructor.
    + intros [= <- <-]. news_leaf E0; [| done].
      apply anchored_quiet. by repeat constructor.
  - intros [= <- <-]. news_leaf E0.
    apply anchored_quiet. by repeat constructor.
Qed.

(** A connected [get_news_articles] whose calls are all answered. *)
Lemma get_news_articles_queries ticker days_back conn (w0 : World) c1 w1
    detail details x1 provider providers x2 t1 x3 t2 x4
    (answer : list HistoricalNews) x5 :
  ensure_connected (conn, w0) = (Ok tt, (c1, w1)) →
  ib (reqContractDetailsAsync (get_contract ticker "SMART")) (ext w1)
  = (Ok (detail :: details), x1) →
  ib reqNewsProvidersAsync x1 = (Ok (provider :: providers), x2) →
  datetime_now x2 = (t1, x3) →
  datetime_now x3 = (t2, x4) →
  Z.abs days_back ≤ 999999999 →
  1 ≤ ordinal t1 - days_back ≤ 3652059 →
  ib (news_query detail provider t1 t2 days_back) x4 = (Ok answer, x5) →
  get_news_articles ticker days_back (conn, w0)
  = (Ok (article_of <$> answer),
     (c1, set_ext x5
            (set_trace (trace w1 ++ news_events ticker detail provider t1 t2
                                      days_back) w1))).
Proof.
  intros Hens Hd Hp Ht1 Ht2 Hdays Hord Ha. unfold get_news_articles.
  rewrite meth_bind_run, Hens.
  rewrite meth_bind_run, (liftW_call_ib_run (reqContractDetailsAsync _)), Hd.
  unfold try_except.
  rewrite meth_bind_run, (liftW_call_ib_run reqNewsProvidersAsync). simpl.
  rewrite Hp.
  rewrite meth_bind_run, liftW_now_run. simpl. rewrite Ht1.
  rewrite meth_bind_run. unfold of_res at 1, timedelta.
  destruct (Z.leb_spec (Z.abs days_back) 999999999) as [_ | Hbad]; [| lia].
  rewrite meth_bind_run. unfold of_res at 1, datetime_sub_days. cbv zeta.
  destruct (Z.leb_spec 1 (ordinal t1 - days_back)) as [_ | Hbad]; [| lia].
  destruct (Z.leb_spec (ordinal t1 - days_back) 3652059) as [_ | Hbad];
    [| lia].
  cbn [andb].
  rewrite meth_bind_run, liftW_now_run. simpl. rewrite Ht2.
  rewrite meth_bind_run,
    (liftW_call_ib_run (reqHistoricalNewsAsync _ _ _ _ _)). simpl.
  unfold news_query, days_before in Ha. rewrite Ha.
  unfold news_events, news_query, days_before, set_ext, set_trace. simpl.
  by rewrite <- !app_assoc.
Qed.

Lemma whole_days_between start_dt end_dt days :
  whole_days start_dt end_dt days → days_between end_dt start_dt = days.
Proof.
  unfold whole_days, micros, days_between, day_micros_len. intros [H1 H2].
  symmetry.
  apply (Z.div_unique _ 86400000000 days
           ((ordinal end_dt - ordinal start_dt) * 86400000000
            + (day_micros end_dt - day_micros start_dt)
            - 86400000000 * days)); lia.
Qed.

Lemma group_articles_fold start_date end_date articles d
    (acc : gmap string (list Article)) :
  foldl (λ grouped_data article,
           let date_str := strftime_ymd (art_time article) in
           if in_range start_date end_date date_str
           then <[date_str := (default [] (grouped_data !! date_str)
                                 ++ [article])%list]> grouped_data
           else grouped_data) acc articles !! d
  = if in_range start_date end_date d
    then match acc !! d, articles_on d articles with
         | None, [] => None
         | o, l => Some (default [] o ++ l)%list
         end
    else acc !! d.
Proof.
  revert acc. induction articles as [| a articles IH]; intros acc.
  - simpl. destruct (in_range _ _ d); [| done].
    destruct (acc !! d); simpl; [by rewrite app_nil_r | done].
  - simpl. rewrite IH. unfold articles_on. rewrite filter_cons.
    destruct (in_range start_date end_date d) eqn:Ed.
    + destruct (decide (strftime_ymd (art_time a) = d)) as [-> | Hne].
      * rewrite Ed, lookup_insert_eq. simpl.
        destruct (acc !! d) as [l0 |]; simpl;
          by rewrite <- ?app_assoc.
      * destruct (in_range _ _ (strftime_ymd (art_time a)));
          by rewrite ?lookup_insert_ne.
    + destruct (in_range _ _ (strftime_ymd (art_time a))) eqn:Ea; [| done].
      rewrite lookup_insert_ne; [done |]. intros E. rewrite E in Ea. congruence.
Qed.

Lemma news_result_lookup start_date end_date articles d :
  news_result (group_articles start_date end_date articles) !! d
  = if in_range start_date end_date d
       && list_truthy (articles_on d articles)
    then Some (AList (article_dict <$> articles_on d articles))
    else None.
Proof.
  unfold news_result, group_articles.
  rewrite lookup_fmap, group_articles_fold, lookup_empty.
  destruct (in_range start_date end_date d); [| done].
  by destruct (articles_on d articles).
Qed.

(** C10: for the kind news with two dates that parse, [days] being
    the whole days from the start date to the end date.  In every run,
    each query the gateway receives has a window that starts [days]
    days before a first reading of the clock and ends at a second
    reading, and without a query nothing is returned.  And when the
    connection stands and the gateway answers, that query is made:
    the requested dates reach the gateway in no call, and the dict
    returned holds, under each date of the requested range, the
    articles of the answer with that date, and nothing else. *)
Theorem news_window_is_anchored_at_now
    ticker start_date end_date kwargs (w : World) start_dt end_dt days :
  strptime_ymd start_date = Ok start_dt →
  strptime_ymd end_date = Ok end_dt →
  whole_days start_dt end_dt days →
  let run := get_ibkr_data_in_range ticker start_date end_date "news" kwargs w in
  (∃ evs,
     trace run.2 = (trace w ++ evs)%list
     ∧ anchored days evs
     ∧ (Forall no_news_query evs → ∀ r, run.1 = Ok r → r = ∅))
  ∧ ∀ conn w0 c1 w1 detail details x1 provider providers x2 t1 x3 t2 x4
      (answer : list HistoricalNews) x5,
      get_ibkr_connection w = (Ok conn, w0) →
      ensure_connected (conn, w0) = (Ok tt, (c1, w1)) →
      ib (reqContractDetailsAsync (get_contract ticker "SMART")) (ext w1)
      = (Ok (detail :: details), x1) →
      ib reqNewsProvidersAsync x1 = (Ok (provider :: providers), x2) →
      datetime_now x2 = (t1, x3) →
      datetime_now x3 = (t2, x4) →
      Z.abs days ≤ 999999999 →
      1 ≤ ordinal t1 - days ≤ 3652059 →
      ib (news_query detail provider t1 t2 days) x4 = (Ok answer, x5) →
      ∃ r,
        run
        = (Ok r,
           set_ibkr_connection (Some c1)
             (set_ext x5
                (set_trace (trace w1 ++ news_events ticker detail provider
                                          t1 t2 days) w1)))
        ∧ ∀ d,
            r !! d
            = let dated := articles_on d (article_of <$> answer) in
              if in_range start_date end_date d && list_truthy dated
              then Some (AList (article_dict <$> dated))
              else None.
Proof.
  intros Hs He Hdays run. subst run.
  apply whole_days_between in Hdays as <-. split.
  - destruct (get_ibkr_data_in_range _ _ _ _ _ w) as [res wf] eqn:Hrun.
    cbn [fst snd]. revert Hrun.
    destruct (get_ibkr_connection_run w) as [conn Hc].
    unfold get_ibkr_data_in_range. rewrite proc_bind_run, Hc.
    unfold with_self, try_except.
    change (String.eqb "news" "news") with true. cbv iota.
    rewrite meth_bind_run, Hs. unfold of_res at 1.
    rewrite meth_bind_run, He. unfold of_res at 1.
    rewrite meth_bind_run.
    destruct (get_news_articles ticker (days_between end_dt start_dt) _)
      as [r0 [c' w']] eqn:En.
    apply get_news_articles_spec in En as (evs & E & Ha & Hr).
    unfold mtrace in E. simpl in E.
    destruct r0 as [articles | e]; simpl; intros [= <- <-].
    + exists evs. split; [done |]. split; [done |].
      intros Hq r [= <-]. by rewrite (Hr Hq articles eq_refl).
    + eexists. split; [simpl; by rewrite E, <- app_assoc |].
      split; [| done].
      apply anchored_app; [done |].
      apply anchored_quiet. by repeat constructor.
  - intros conn w0 c1 w1 detail details x1 provider providers x2 t1 x3 t2 x4
      answer x5 Hc Hens Hd Hp Ht1 Ht2 Hmag Hord Ha.
    eexists. split; [| intros d; apply news_result_lookup].
    unfold get_ibkr_data_in_range. rewrite proc_bind_run, Hc.
    unfold with_self, try_except.
    change (String.eqb "news" "news") with true. cbv iota.
    rewrite meth_bind_run, Hs. unfold of_res at 1.
    rewrite meth_bind_run, He. unfold of_res at 1.
    rewrite meth_bind_run.
    by rewrite (get_news_articles_queries ticker _ conn w0 c1 w1 detail
                  details x1 provider providers x2 t1 x3 t2 x4 answer x5
                  Hens Hd Hp Ht1 Ht2 Hmag Hord Ha).
Qed.

End Properties.

(** ** The properties on the scripted request *)

Section Witnesses.
Import Scripted Scenario.

Local Abbreviation run_request fallback w :=
  (get_data_in_range (manager fallback) "AAPL" "2024-01-01" "2024-01-05"
     "news" None None ∅ w).
Local Abbreviation run_fetch src w :=
  (fetch src "AAPL" "2024-01-01" "2024-01-05" "news" None None ∅ w).
Local Abbreviation run_ibkr kind w :=
  (get_ibkr_data_in_range "AAPL" "2024-01-01" "2024-01-05" kind ∅ w).

(** A run is its outcome and the world it leaves. *)
Lemma run_eq {A} (r : Res A * World) (a : Res A) : r.1 = a → r = (a, r.2).
Proof. destruct r. simpl. by intros ->. Defined.

Ltac by_run :=
  lazymatch goal with
  | |- ?r = (?a, _) => refine (run_eq r a _); vm_compute; reflexivity
  end.

(** The gateway is up on 2024-01-05: IBKR returns the article of
    2024-01-03, and so does the request. *)
Lemma primary_success_witness :
  let w := world_at true jan5_noon (Ok ∅) true in
  let w1 := (run_fetch (primary (manager true)) w).2 in
  run_fetch (primary (manager true)) w = (Ok news_jan3, w1)
  ∧ news_jan3 ≠ ∅
  ∧ run_request true w
    = (Ok news_jan3,
       logged INFO ("Successfully fetched data from "
                      ++ primary_source (manager true)) w1)
  ∧ fetches_of (secondary (manager true)) (trace (run_request true w).2)
    = fetches_of (secondary (manager true)) (trace w).
Proof.
  intros w w1.
  assert (H1 : run_fetch (primary (manager true)) w = (Ok news_jan3, w1))
    by by_run.
  assert (H2 : news_jan3 ≠ ∅) by done.
  exact (conj H1 (conj H2
    (primary_success_is_returned (manager true) "AAPL" "2024-01-01"
       "2024-01-05" "news" None None ∅ w news_jan3 w1 H1 H2))).
Defined.

(** The gateway is down and the Finnhub files are missing: the
    request raises what the gateway raised. *)
Lemma both_fail_witness :
  let w := world_at false jan5_noon (Err FileNotFoundError) true in
  let w1 := (run_fetch (primary (manager true)) w).2 in
  let w1' := logged INFO ("Attempting fallback to "
                            ++ fallback_source (manager true))
               (logged WARNING
                  ("Failed to fetch data from " ++ primary_source (manager true)
                     ++ ": " ++ exn_str ConnectionRefusedError) w1) in
  let w2 := (run_fetch (secondary (manager true)) w1').2 in
  enable_fallback (manager true) = true
  ∧ run_fetch (primary (manager true)) w = (Err ConnectionRefusedError, w1)
  ∧ run_fetch (secondary (manager true)) w1' = (Err FileNotFoundError, w2)
  ∧ run_request true w
    = (Err ConnectionRefusedError,
       logged WARNING ("Fallback also failed: " ++ exn_str FileNotFoundError)
         w2).
Proof.
  intros w w1 w1' w2.
  assert (H1 : run_fetch (primary (manager true)) w
               = (Err ConnectionRefusedError, w1)) by by_run.
  assert (H2 : run_fetch (secondary (manager true)) w1'
               = (Err FileNotFoundError, w2)) by by_run.
  exact (conj eq_refl (conj H1 (conj H2
    (both_fail_primary_error_raised (manager true) "AAPL" "2024-01-01"
       "2024-01-05" "news" None None ∅ w ConnectionRefusedError w1
       FileNotFoundError w2 eq_refl H1 H2)))).
Defined.

(** On 2024-06-01 the gateway has nothing in the window it is asked
    for, and Finnhub has nothing either: the request returns the
    empty dict after one fetch from Finnhub. *)
Lemma empty_primary_witness :
  let w := world_at true jun1_noon (Ok ∅) true in
  let w1 := (run_fetch (primary (manager true)) w).2 in
  let w1' := logged INFO ("Attempting fallback to "
                            ++ fallback_source (manager true)) w1 in
  let w2 := (run_fetch (secondary (manager true)) w1').2 in
  enable_fallback (manager true) = true
  ∧ run_fetch (primary (manager true)) w = (Ok ∅, w1)
  ∧ fetches_of (secondary (manager true)) (trace (run_request true w).2)
    = (fetches_of (secondary (manager true)) (trace w) ++ [finnhub_call])%list
  ∧ run_request true w = (Ok ∅, w2).
Proof.
  intros w w1 w1' w2.
  assert (H1 : run_fetch (primary (manager true)) w = (Ok ∅, w1)) by by_run.
  assert (H2 : run_fetch (secondary (manager true)) w1' = (Ok ∅, w2))
    by by_run.
  destruct (empty_primary_falls_back (manager true) "AAPL" "2024-01-01"
              "2024-01-05" "news" None None ∅ w w1 eq_refl H1)
    as (Hf & Hempty & _).
  exact (conj eq_refl (conj H1 (conj Hf (Hempty w2 H2)))).
Defined.

(** The scenario of the specification: the gateway is down, fallback
    is enabled; Finnhub is asked once, for the same ticker and dates,
    and what it returns is returned. *)
Lemma primary_error_witness :
  let w := world_at false jan5_noon (Ok cached_news) true in
  let w1 := (run_fetch (primary (manager true)) w).2 in
  let w1' := logged INFO ("Attempting fallback to "
                            ++ fallback_source (manager true))
               (logged WARNING
                  ("Failed to fetch data from " ++ primary_source (manager true)
                     ++ ": " ++ exn_str ConnectionRefusedError) w1) in
  let w2 := (run_fetch (secondary (manager true)) w1').2 in
  enable_fallback (manager true) = true
  ∧ run_fetch (primary (manager true)) w = (Err ConnectionRefusedError, w1)
  ∧ fetches_of (secondary (manager true)) (trace (run_request true w).2)
    = (fetches_of (secondary (manager true)) (trace w) ++ [finnhub_call])%list
  ∧ run_request true w
    = (Ok cached_news,
       logged INFO ("Successfully fetched data from fallback source: "
                      ++ fallback_source (manager true)) w2).
Proof.
  intros w w1 w1' w2.
  assert (H1 : run_fetch (primary (manager true)) w
               = (Err ConnectionRefusedError, w1)) by by_run.
  assert (H2 : run_fetch (secondary (manager true)) w1' = (Ok cached_news, w2))
    by by_run.
  assert (H3 : cached_news ≠ ∅) by done.
  destruct (primary_error_falls_back (manager true) "AAPL" "2024-01-01"
              "2024-01-05" "news" None None ∅ w ConnectionRefusedError w1
              eq_refl H1) as (Hf & Hret).
  exact (conj eq_refl (conj H1 (conj Hf (Hret cached_news w2 H2 H3)))).
Defined.

(** The gateway is down and fallback is disabled: the request raises
    what the gateway raised, and Finnhub is not asked. *)
Lemma no_fallback_witness :
  let w := world_at false jan5_noon (Ok cached_news) false in
  let w1 := (run_fetch (primary (manager false)) w).2 in
  enable_fallback (manager false) = false
  ∧ run_fetch (primary (manager false)) w = (Err ConnectionRefusedError, w1)
  ∧ run_request false w
    = (Err ConnectionRefusedError,
       logged WARNING
         ("Failed to fetch data from " ++ primary_source (manager false)
            ++ ": " ++ exn_str ConnectionRefusedError) w1)
  ∧ fetches_of (secondary (manager false)) (trace (run_request false w).2)
    = fetches_of (secondary (manager false)) (trace w).
Proof.
  intros w w1.
  assert (H1 : run_fetch (primary (manager false)) w
               = (Err ConnectionRefusedError, w1)) by by_run.
  exact (conj eq_refl (conj H1
    (no_fallback_primary_error_raised (manager false) "AAPL" "2024-01-01"
       "2024-01-05" "news" None None ∅ w ConnectionRefusedError w1
       eq_refl H1))).
Defined.

(** A request for the kind options. *)
Lemma unknown_kind_witness :
  let w := world_at true jan5_noon (Ok ∅) true in
  ("options" ∉ data_kinds)
  ∧ ∃ conn,
      get_ibkr_connection w = (Ok conn, set_ibkr_connection (Some conn) w)
      ∧ run_ibkr "options" w
        = (Ok ∅, logged WARNING ("Unknown data type: " ++ "options")
                   (set_ibkr_connection (Some conn) w)).
Proof.
  intros w.
  assert (H1 : "options" ∉ data_kinds).
  { apply (bool_decide_unpack _). vm_compute. exact I. }
  exact (conj H1
    (unknown_kind_warns_and_returns_empty "AAPL" "2024-01-01" "2024-01-05"
       "options" ∅ w H1)).
Defined.

(** The news of the week, fetched on 2024-01-05. *)
Lemma returned_keys_witness :
  let w := world_at true jan5_noon (Ok ∅) true in
  let w' := (run_ibkr "news" w).2 in
  String.leb "2024-01-01" "2024-01-05" = true
  ∧ run_ibkr "news" w = (Ok news_jan3, w')
  ∧ (∀ k, k ∈ dom news_jan3 →
          String.leb "2024-01-01" k = true ∧ String.leb k "2024-01-05" = true)
  ∧ ("news" ∈ snapshot_kinds → ∀ k, k ∈ dom news_jan3 → k = "2024-01-05").
Proof.
  intros w w'.
  assert (H1 : run_ibkr "news" w = (Ok news_jan3, w')) by by_run.
  exact (conj eq_refl (conj H1
    (returned_keys_in_range "AAPL" "2024-01-01" "2024-01-05" "news" ∅ w
       news_jan3 w' eq_refl H1))).
Defined.

(** Asked at noon of 2024-01-05 for 2024-01-01 to 2024-01-04, that
    is three days: the gateway is asked for the window from noon of
    2024-01-02 to that noon, answers with the articles of 2024-01-03
    and of 2024-01-05, and only the first is returned. *)
Lemma news_window_witness :
  let w := world_two in
  let w0 := set_ibkr_connection (Some connection_new) w in
  let w1 := set_trace [EIB (connectAsync "127.0.0.1" 7497 1 30);
                       ELog INFO "Connected to IBKR at 127.0.0.1:7497"] w0 in
  let q := reqHistoricalNewsAsync 265598 "BRFG"
             (mkDatetime 738887 43200000000) jan5_noon 100 in
  strptime_ymd "2024-01-01" = Ok (mkDatetime 738886 0)
  ∧ strptime_ymd "2024-01-04" = Ok (mkDatetime 738889 0)
  ∧ whole_days (mkDatetime 738886 0) (mkDatetime 738889 0) 3
  ∧ ensure_connected (connection_new, w0) = (Ok tt, (connection_up, w1))
  ∧ ib q two_articles = (Ok [article_jan3; article_jan5], two_articles)
  ∧ get_ibkr_data_in_range "AAPL" "2024-01-01" "2024-01-04" "news" ∅ w
    = (Ok news_jan3,
       set_ibkr_connection (Some connection_up)
         (set_trace
            [EIB (connectAsync "127.0.0.1" 7497 1 30);
             ELog INFO "Connected to IBKR at 127.0.0.1:7497";
             EIB (reqContractDetailsAsync (get_contract "AAPL" "SMART"));
             EIB reqNewsProvidersAsync;
             ENow jan5_noon; ENow jan5_noon; EIB q] w1)).
Proof.
  intros w w0 w1 q.
  assert (H1 : strptime_ymd "2024-01-01" = Ok (mkDatetime 738886 0))
    by (vm_compute; reflexivity).
  assert (H2 : strptime_ymd "2024-01-04" = Ok (mkDatetime 738889 0))
    by (vm_compute; reflexivity).
  assert (H3 : whole_days (mkDatetime 738886 0) (mkDatetime 738889 0) 3)
    by (unfold whole_days, micros; simpl; lia).
  assert (H4 : ensure_connected (connection_new, w0)
               = (Ok tt, (connection_up, w1))) by reflexivity.
  assert (H5 : ib q two_articles
               = (Ok [article_jan3; article_jan5], two_articles))
    by reflexivity.
  assert (H6 : Z.abs 3 ≤ 999999999) by (simpl; lia).
  assert (H7 : 1 ≤ ordinal jan5_noon - 3 ≤ 3652059) by (simpl; lia).
  assert (E : (get_ibkr_data_in_range "AAPL" "2024-01-01" "2024-01-04" "news"
                 ∅ w).1 = Ok news_jan3) by (vm_compute; reflexivity).
  destruct (news_window_is_anchored_at_now "AAPL" "2024-01-01" "2024-01-04" ∅
              w (mkDatetime 738886 0) (mkDatetime 738889 0) 3 H1 H2 H3)
    as [_ Hq].
  destruct (Hq connection_new w0 connection_up w1 aapl_details [] two_articles
              briefing [] two_articles jan5_noon two_articles jan5_noon
              two_articles [article_jan3; article_jan5] two_articles
              eq_refl H4 eq_refl eq_refl eq_refl eq_refl H6 H7 H5)
    as (r & Hrun & _).
  pose proof (f_equal fst Hrun) as Er. cbn [fst] in Er.
  rewrite E in Er. injection Er as <-.
  exact (conj H1 (conj H2 (conj H3 (conj H4 (conj H5 Hrun))))).
Defined.

(** The calendar of the scripted outside. *)
Example strptime_jan1 : strptime "2024-01-01" = Ok (mkDatetime 738886 0).
Proof. reflexivity. Qed.

Example strptime_feb30 :
  strptime "2024-02-30" = Err (ValueError "day is out of range for month").
Proof. reflexivity. Qed.

Example strftime_jan5 : strftime (mkDatetime 738890 0) = "2024-01-05".
Proof. reflexivity. Qed.

Example strptime_unpadded : strptime "2024-1-5" = Ok (mkDatetime 738890 0).
Proof. reflexivity. Qed.

Example strptime_jan32 :
  strptime "2024-01-32" = Err (ValueError "unconverted data remains: 2").
Proof. reflexivity. Qed.

Example strftime_year999 : strftime (mkDatetime 364513 0) = "999-01-01".
Proof. reflexivity. Qed.

(** Asked on 2024-06-01 for the first week of January, the gateway
    is queried for the four days before that noon, and the article of
    2024-01-03 it holds does not come back. *)
Example june_history :
  trace (run_ibkr "news" (world_at true jun1_noon (Ok ∅) true)).2
  = [EIB (connectAsync "127.0.0.1" 7497 1 30);
     ELog INFO "Connected to IBKR at 127.0.0.1:7497";
     EIB (reqContractDetailsAsync (Stock "AAPL" "SMART" "USD"));
     EIB reqNewsProvidersAsync;
     ENow jun1_noon;
     ENow jun1_noon;
     EIB (reqHistoricalNewsAsync 265598 "BRFG"
            (mkDatetime 739034 43200000000) jun1_noon 100)].
Proof. vm_compute. reflexivity. Qed.

Example june_result :
  (run_ibkr "news" (world_at true jun1_noon (Ok ∅) true)).1 = Ok ∅.
Proof. vm_compute. reflexivity. Qed.

(** Cleanup after a request closes the connection once. *)
Example cleanup_after_request :
  let w := (run_request true (world_at true jan5_noon (Ok ∅) true)).2 in
  trace (cleanup_ibkr_connection w).2
  = (trace w ++ [EIB disconnect_ib; ELog INFO "Disconnected from IBKR"])%list
  ∧ trace (cleanup_ibkr_connection (cleanup_ibkr_connection w).2).2
    = trace (cleanup_ibkr_connection w).2.
Proof. split; vm_compute; reflexivity. Qed.

End Witnesses.

(** ** The methods of the connection and the module state *)

Section Methods.
Context `{Externals}.

Lemma m_bind_run {S A B} (m : M S A) (k : A → M S B) s :
  (m ≫= k) s = match m s with
               | (Ok a, s') => k a s'
               | (Err e, s') => (Err e, s')
               end.
Proof. reflexivity. Qed.

Ltac bind_run :=
  first [rewrite meth_bind_run | rewrite proc_bind_run | rewrite m_bind_run].

Lemma liftW_log_run lvl msg c (w : World) :
  liftW (log lvl msg) (c, w) = (Ok tt, (c, logged lvl msg w)).
Proof. reflexivity. Qed.

Lemma liftW_call_ib_called r c (w : World) :
  liftW (call_ib r) (c, w)
  = let '(a, x) := ib r (ext w) in (a, (c, called r x w)).
Proof. apply liftW_call_ib_run. Qed.

Lemma connect_run c (w : World) :
  connect (c, w)
  = match ib (connect_request c) (ext w) with
    | (Ok _, x) =>
      (Ok tt, (set_connected true c,
               logged INFO ("Connected to IBKR at " ++ conn_host c ++ ":"
                              ++ pretty (conn_port c))
                 (called (connect_request c) x w)))
    | (Err e, x) => (Err e, (set_connected false c, connect_failed c e x w))
    end.
Proof.
  unfold connect, try_except. rewrite meth_bind_run. simpl.
  rewrite meth_bind_run.
  rewrite (liftW_call_ib_called (connectAsync _ _ _ _)).
  unfold connect_request.
  destruct (ib (connectAsync _ _ _ _) (ext w)) as [[[] | e] x]; reflexivity.
Qed.

(** X1: [connect] makes one [connectAsync] call with the host, port,
    client id and timeout of the object, and its outcome is that
    call's; the flag [connected] ends true when the call returned and
    false when it raised; one record follows the call, at INFO or at
    ERROR. *)
Theorem connect_sets_connected c (w : World) :
  let '(r, (c', w')) := connect (c, w) in
  r = (ib (connect_request c) (ext w)).1
  ∧ c' = set_connected (match r with Ok _ => true | Err _ => false end) c
  ∧ ∃ msg,
      trace w'
      = (trace w ++ [EIB (connect_request c);
                     ELog (match r with Ok _ => INFO | Err _ => ERROR end)
                       msg])%list.
Proof.
  rewrite connect_run.
  destruct (ib (connect_request c) (ext w)) as [[[] | e] x]; simpl;
    (split; [done |]); (split; [done |]); eexists; by rewrite <- app_assoc.
Qed.

Lemma disconnect_run c (w : World) :
  disconnect (c, w)
  = if connected c then
      match ib disconnect_ib (ext w) with
      | (Ok _, x) =>
        (Ok tt, (set_connected false c,
                 logged INFO "Disconnected from IBKR" (called disconnect_ib x w)))
      | (Err e, x) => (Err e, (c, called disconnect_ib x w))
      end
    else (Ok tt, (c, w)).
Proof.
  unfold disconnect. rewrite meth_bind_run. simpl.
  destruct (connected c); [| done].
  rewrite meth_bind_run, (liftW_call_ib_called disconnect_ib).
  destruct (ib disconnect_ib (ext w)) as [[[] | e] x]; reflexivity.
Qed.

(** X2: [disconnect] does nothing on an object that is not
    connected; when it returns the object is not connected, and a
    second [disconnect] does nothing; when the client's [disconnect]
    raises, the flag stays set. *)
Theorem disconnect_outcome c (w : World) :
  let '(r, (c', w')) := disconnect (c, w) in
  (connected c = false → r = Ok tt ∧ c' = c ∧ w' = w)
  ∧ (r = Ok tt → connected c' = false
                 ∧ disconnect (c', w') = (Ok tt, (c', w')))
  ∧ (∀ e, r = Err e → c' = c ∧ connected c = true).
Proof.
  rewrite disconnect_run. destruct (connected c) eqn:Ec.
  - destruct (ib disconnect_ib (ext w)) as [[[] | e] x].
    + split; [done |]. split; [| done]. intros _. split; [done |].
      by rewrite disconnect_run.
    + split; [done |]. split; [done |]. by intros e' _.
  - split; [done |]. split; [| done]. intros _. split; [done |].
    by rewrite disconnect_run, Ec.
Qed.

Lemma ensure_connected_run c (w : World) :
  ensure_connected (c, w)
  = if connected c then (Ok tt, (c, w)) else connect (c, w).
Proof.
  unfold ensure_connected. rewrite meth_bind_run. simpl.
  by destruct (connected c).
Qed.

(** A method that starts with [ensure_connected] stops there when the
    gateway refuses the connection. *)
Lemma connect_first_fails {A} (k : Meth A) c (w : World) e x :
  connected c = false →
  ib (connect_request c) (ext w) = (Err e, x) →
  (ensure_connected;; k) (c, w)
  = (Err e, (set_connected false c, connect_failed c e x w)).
Proof.
  intros Ec Hc. rewrite meth_bind_run, ensure_connected_run, Ec, connect_run.
  by rewrite Hc.
Qed.

(** X3: on an object that is not connected, when the gateway refuses
    the connection each of the five data methods raises the exception
    of [connectAsync], leaves the object not connected and makes no
    other call: the history gets the connection call and the ERROR
    record of [connect]. *)
Theorem connection_failure_is_raised ticker c (w : World) e x :
  connected c = false →
  ib (connect_request c) (ext w) = (Err e, x) →
  (∀ duration bar_size what_to_show,
     get_historical_data ticker duration bar_size what_to_show (c, w)
     = refused c e x w)
  ∧ (∀ days_back, get_news_articles ticker days_back (c, w) = refused c e x w)
  ∧ get_company_info ticker (c, w) = refused c e x w
  ∧ get_fundamentals ticker (c, w) = refused c e x w
  ∧ get_real_time_data ticker (c, w) = refused c e x w.
Proof.
  intros Ec Hc. unfold refused.
  repeat split; intros; by apply connect_first_fails.
Qed.

(** X4: on a connected object [get_fundamentals] never raises and
    leaves the object as it was: it makes the one request for the
    report; when the request is answered it returns the report under
    the key fundamentals, and when the request raises it records a
    WARNING with the text of the exception and returns the empty
    dict. *)
Theorem get_fundamentals_swallows_request_errors
    ticker c (w : World) (a : Res Any) x :
  connected c = true →
  ib (report_request ticker) (ext w) = (a, x) →
  get_fundamentals ticker (c, w)
  = match a with
    | Ok report =>
      (Ok [("fundamentals", report)],
       (c, called (report_request ticker) x w))
    | Err e =>
      (Ok [],
       (c, logged WARNING ("Failed to get fundamentals for " ++ ticker
                             ++ ": " ++ exn_str e)
             (called (report_request ticker) x w)))
    end.
Proof.
  intros Ec Ha. unfold get_fundamentals.
  bind_run. rewrite ensure_connected_run, Ec.
  unfold try_except.
  bind_run. rewrite (liftW_call_ib_called (reqFundamentalDataAsync _ _)).
  unfold report_request in *. rewrite Ha. by destruct a.
Qed.

Lemma get_news_articles_after_details ticker days_back c (w : World) cds x r s' :
  connected c = true →
  ib (reqContractDetailsAsync (get_contract ticker "SMART")) (ext w)
  = (Ok cds, x) →
  get_news_articles ticker days_back (c, w) = (r, s') →
  ∃ articles w', r = Ok articles ∧ s' = (c, w').
Proof.
  intros Ec Hd. unfold get_news_articles.
  bind_run; rewrite ensure_connected_run, Ec.
  bind_run; rewrite (liftW_call_ib_called (reqContractDetailsAsync _)), Hd.
  destruct cds as [| detail cds]; [intros [= <- <-]; by do 2 eexists |].
  unfold try_except.
  bind_run; rewrite (liftW_call_ib_called reqNewsProvidersAsync). simpl.
  destruct (ib reqNewsProvidersAsync x) as [[[| provider ?] | e2] x2];
    [intros [= <- <-]; by do 2 eexists | | intros [= <- <-]; by do 2 eexists].
  bind_run; rewrite liftW_now_run. simpl.
  destruct (datetime_now x2) as [t1 x3].
  bind_run. unfold of_res at 1.
  destruct (timedelta days_back) as [delta | e3];
    [| intros [= <- <-]; by do 2 eexists].
  bind_run. unfold of_res at 1.
  destruct (datetime_sub_days t1 delta) as [from | e4];
    [| intros [= <- <-]; by do 2 eexists].
  bind_run; rewrite liftW_now_run. simpl.
  destruct (datetime_now x3) as [to x4].
  bind_run; rewrite (liftW_call_ib_run (reqHistoricalNewsAsync _ _ _ _ _)). simpl.
  destruct (ib (reqHistoricalNewsAsync _ _ from to 100) x4)
    as [[answer | e5] x5]; intros [= <- <-]; by do 2 eexists.
Qed.

(** X5: on a connected object, once the contract details are answered
    [get_news_articles] returns a list whatever the later steps do (the
    provider lookup, the clock arithmetic, the news query); with no
    details it returns the empty list and makes no further call. *)
Theorem get_news_articles_raises_only_early ticker days_back c (w : World) cds x :
  connected c = true →
  ib (reqContractDetailsAsync (get_contract ticker "SMART")) (ext w)
  = (Ok cds, x) →
  (∃ articles w',
     get_news_articles ticker days_back (c, w) = (Ok articles, (c, w')))
  ∧ (cds = [] →
     get_news_articles ticker days_back (c, w)
     = (Ok [], (c, called (reqContractDetailsAsync (get_contract ticker "SMART"))
                     x w))).
Proof.
  intros Ec Hd. split.
  - destruct (get_news_articles ticker days_back (c, w)) as [r s'] eqn:E.
    destruct (get_news_articles_after_details _ _ _ _ _ _ _ _ Ec Hd E)
      as (articles & w' & -> & ->).
    by do 2 eexists.
  - intros ->. unfold get_news_articles.
    bind_run; rewrite ensure_connected_run, Ec.
    by bind_run; rewrite (liftW_call_ib_called (reqContractDetailsAsync _)), Hd.
Qed.

(** *** Invariants *)

Section Holds.
Context {S : Type} (tr : S → list Event) (I : S → Prop) (P : Event → Prop).

Lemma holds_same {A} (m : M S A) :
  (∀ s, (m s).2 = s) → holds tr I P m.
Proof.
  intros Hm s Hs. rewrite Hm. split; [done |]. exists []. by rewrite app_nil_r.
Qed.

Lemma holds_ret {A} (a : A) : holds tr I P (mret a).
Proof. by apply holds_same. Qed.

Lemma holds_raise {A} e : holds tr I P (@raise S A e).
Proof. by apply holds_same. Qed.

Lemma holds_gets {A} (f : S → A) : holds tr I P (gets f).
Proof. by apply holds_same. Qed.

Lemma holds_of_res {A} (r : Res A) : holds tr I P (of_res r).
Proof. by apply holds_same. Qed.

Lemma holds_bind {A B} (m : M S A) (k : A → M S B) :
  holds tr I P m → (∀ a, holds tr I P (k a)) → holds tr I P (m ≫= k).
Proof.
  intros Hm Hk s Hs. rewrite m_bind_run.
  destruct (Hm s Hs) as (I1 & evs1 & E1 & F1).
  destruct (m s) as [[a | e] s1]; simpl in *.
  - destruct (Hk a s1 I1) as (I2 & evs2 & E2 & F2).
    split; [done |]. exists (evs1 ++ evs2)%list.
    split; [by rewrite E2, E1, app_assoc | by apply Forall_app].
  - split; [done |]. by exists evs1.
Qed.

Lemma holds_try_except {A} (m : M S A) h :
  holds tr I P m → (∀ e, holds tr I P (h e)) → holds tr I P (try_except m h).
Proof.
  intros Hm Hh s Hs. unfold try_except.
  destruct (Hm s Hs) as (I1 & evs1 & E1 & F1).
  destruct (m s) as [[a | e] s1]; simpl in *.
  - split; [done |]. by exists evs1.
  - destruct (Hh e s1 I1) as (I2 & evs2 & E2 & F2).
    split; [done |]. exists (evs1 ++ evs2)%list.
    split; [by rewrite E2, E1, app_assoc | by apply Forall_app].
Qed.

End Holds.

Section HoldsWorld.
Context (Ic : IBKRConnection → Prop) (Iw : World → Prop) (P : Event → Prop).
Hypothesis Iw_trace : ∀ t w, Iw w → Iw (set_trace t w).
Hypothesis Iw_ext : ∀ x w, Iw w → Iw (set_ext x w).

Lemma holds_emit ev : P ev → holds trace Iw P (emit ev).
Proof.
  intros Hev w Hw. split; [by apply Iw_trace |].
  exists [ev]. split; [done | by constructor].
Qed.

Lemma holds_outside {A} (f : Ext → Res A * Ext) : holds trace Iw P (outside f).
Proof.
  intros w Hw. unfold outside. destruct (f (ext w)) as [r x]. simpl.
  split; [by apply Iw_ext |]. exists []. by rewrite app_nil_r.
Qed.

Lemma holds_call_ib r : P (EIB r) → holds trace Iw P (call_ib r).
Proof.
  intros Hr. apply holds_bind; [by apply holds_emit |].
  intros _. apply holds_outside.
Qed.

Lemma holds_now : (∀ t, P (ENow t)) → holds trace Iw P now.
Proof.
  intros Ht. apply holds_bind; [apply holds_outside |].
  intros t. apply holds_bind; [by apply holds_emit | intros; apply holds_ret].
Qed.

Lemma holds_sleep secs : P (ESleep secs) → holds trace Iw P (sleep secs).
Proof.
  intros Hs. apply holds_bind; [by apply holds_emit |].
  intros _. apply holds_outside.
Qed.

Lemma holds_liftW {A} (m : Proc A) :
  holds trace Iw P m → holds mtrace (both Ic Iw) P (liftW m).
Proof.
  intros Hm [c w] [Hc Hw]. destruct (Hm w Hw) as (I1 & evs & E & F).
  unfold liftW, mtrace, both. destruct (m w) as [r w']. simpl in *.
  split; [done |]. by exists evs.
Qed.

(** The data methods, given that [ensure_connected] does. *)
Hypothesis P_log : ∀ lvl msg, P (ELog lvl msg).
Hypothesis P_now : ∀ t, P (ENow t).
Hypothesis P_sleep : ∀ secs, P (ESleep secs).
Hypothesis P_data : ∀ r, is_connect (EIB r) = false → P (EIB r).
Hypothesis ensure_holds : holds mtrace (both Ic Iw) P ensure_connected.

Ltac holds_tac :=
  repeat first
    [ progress intros
    | done
    | apply holds_ret | apply holds_raise | apply holds_gets
    | apply holds_of_res
    | apply holds_liftW
    | apply holds_emit; apply P_log
    | apply holds_emit; apply P_data; reflexivity
    | apply holds_now | apply holds_sleep | apply holds_outside
    | apply holds_bind | apply holds_try_except
    | match goal with
      | |- holds _ _ _ (if ?b then _ else _) => destruct b
      | |- holds _ _ _ (match ?x with _ => _ end) => destruct x
      end ].

Hypothesis Iw_connection : ∀ c w, Iw w → Iw (set_ibkr_connection c w).

Lemma holds_with_self {A} c (m : Meth A) (w : World) :
  holds mtrace (both Ic Iw) P m → Ic c → Iw w →
  let w' := (with_self c m w).2 in
  Iw w'
  ∧ (∃ c', _ibkr_connection w' = Some c' ∧ Ic c')
  ∧ ∃ evs, trace w' = (trace w ++ evs)%list ∧ Forall P evs.
Proof.
  intros Hm Hc Hw. destruct (Hm (c, w)) as ([Hc' Hw'] & evs & E & F); [done |].
  unfold with_self, mtrace in *. destruct (m (c, w)) as [r [c' w']].
  simpl in *. split; [by apply Iw_connection |]. split; [by exists c' |].
  by exists evs.
Qed.

Lemma get_ibkr_data_in_range_holds
    ticker start_date end_date data_type kwargs (w : World) conn :
  get_ibkr_connection w = (Ok conn, set_ibkr_connection (Some conn) w) →
  Ic conn → Iw w →
  let w' := (get_ibkr_data_in_range ticker start_date end_date data_type
               kwargs w).2 in
  Iw w'
  ∧ (∃ c', _ibkr_connection w' = Some c' ∧ Ic c')
  ∧ ∃ evs, trace w' = (trace w ++ evs)%list ∧ Forall P evs.
Proof.
  intros Hconn Hc Hw. unfold get_ibkr_data_in_range.
  rewrite proc_bind_run, Hconn.
  apply (holds_with_self conn _ (set_ibkr_connection (Some conn) w));
    [| done | by apply Iw_connection].
  unfold get_news_articles, get_historical_data, get_fundamentals,
    get_company_info, get_real_time_data, log.
  holds_tac.
Qed.

End HoldsWorld.

Section HoldsConnect.
Context (Ic : IBKRConnection → Prop) (Iw : World → Prop) (P : Event → Prop).
Hypothesis Iw_trace : ∀ t w, Iw w → Iw (set_trace t w).
Hypothesis Iw_ext : ∀ x w, Iw w → Iw (set_ext x w).
Hypothesis Ic_flag : ∀ b c, Ic c → Ic (set_connected b c).
Hypothesis P_log : ∀ lvl msg, P (ELog lvl msg).
Hypothesis P_ib : ∀ r, P (EIB r).

Lemma holds_set_self_connected b :
  holds mtrace (both Ic Iw) P (set_self_connected b).
Proof.
  intros [c w] [Hc Hw]. split; [split; [by apply Ic_flag | done] |].
  exists []. unfold mtrace. simpl. by rewrite app_nil_r.
Qed.

Lemma holds_ensure_connected : holds mtrace (both Ic Iw) P ensure_connected.
Proof.
  unfold ensure_connected, connect, self, log.
  repeat first
    [ progress intros
    | apply holds_ret | apply holds_raise | apply holds_gets
    | apply holds_set_self_connected
    | apply holds_liftW
    | apply holds_emit; [done | first [apply P_log | apply P_ib]]
    | apply holds_outside; done
    | apply holds_bind | apply holds_try_except
    | match goal with
      | |- holds _ _ _ (if ?b then _ else _) => destruct b
      end ].
Qed.

End HoldsConnect.

(** *** ibkr_utils, module level *)

Lemma get_ibkr_connection_some (w : World) c :
  _ibkr_connection w = Some c → get_ibkr_connection w = (Ok c, w).
Proof.
  intros E. unfold get_ibkr_connection. bind_run. simpl. by rewrite E.
Qed.

Lemma get_ibkr_connection_none (w : World) :
  _ibkr_connection w = None →
  get_ibkr_connection w
  = (Ok (fresh_connection (config w)),
     set_ibkr_connection (Some (fresh_connection (config w))) w).
Proof.
  intros E. unfold get_ibkr_connection. bind_run. simpl. by rewrite E.
Qed.

(** X6: [get_ibkr_connection] returns the object of the handle and
    leaves it there, so that a second call returns the same object and
    changes nothing; the object is the handle's when the handle was
    set, and one built from the configuration otherwise. *)
Theorem get_ibkr_connection_is_singleton (w : World) :
  ∃ c,
    get_ibkr_connection w = (Ok c, set_ibkr_connection (Some c) w)
    ∧ get_ibkr_connection (set_ibkr_connection (Some c) w)
      = (Ok c, set_ibkr_connection (Some c) w)
    ∧ (∀ c0, _ibkr_connection w = Some c0 → c = c0)
    ∧ (_ibkr_connection w = None → c = fresh_connection (config w)).
Proof.
  destruct (_ibkr_connection w) as [c0 |] eqn:E.
  - exists c0. rewrite (world_eta_connection w (Some c0) E).
    rewrite (get_ibkr_connection_some w c0 E).
    split; [done |]. split; [done |]. split; [by intros ? [=] | done].
  - exists (fresh_connection (config w)).
    split; [by apply get_ibkr_connection_none |].
    split; [by apply get_ibkr_connection_some |]. by split.
Qed.

Lemma cleanup_ibkr_connection_config (w : World) :
  config (cleanup_ibkr_connection w).2 = config w
  ∧ _ibkr_connection (cleanup_ibkr_connection w).2 = None.
Proof.
  destruct (cleanup_ibkr_connection w) as [r w'] eqn:Hrun. revert Hrun.
  unfold cleanup_ibkr_connection. bind_run. simpl.
  destruct (_ibkr_connection w) as [c |] eqn:E; [| by intros [= <- <-]].
  bind_run. unfold try_except, asyncio_run.
  bind_run. unfold outside at 1.
  destruct (asyncio_run_enter (ext w)) as [[[] | e] x];
    [| by intros [= <- <-]].
  unfold with_self. rewrite disconnect_run.
  destruct (connected c); [| by intros [= <- <-]].
  simpl. by destruct (ib disconnect_ib x) as [[[] | e] x']; intros [= <- <-].
Qed.

(** X7: after [cleanup_ibkr_connection], whatever happened in it, the
    next [get_ibkr_connection] builds a new, unconnected object from
    the configuration. *)
Theorem connection_is_rebuilt_after_cleanup (w : World) :
  let w1 := (cleanup_ibkr_connection w).2 in
  get_ibkr_connection w1
  = (Ok (fresh_connection (config w)),
     set_ibkr_connection (Some (fresh_connection (config w))) w1).
Proof.
  intros w1. destruct (cleanup_ibkr_connection_config w) as [Hcfg Hnone].
  fold w1 in Hcfg, Hnone.
  by rewrite (get_ibkr_connection_none w1 Hnone), Hcfg.
Qed.

(** X8: whenever [get_ibkr_data_in_range] raises, the last record of
    the history is its ERROR record, with the text of the exception. *)
Theorem ibkr_errors_are_logged
    ticker start_date end_date data_type kwargs (w : World) e w' :
  get_ibkr_data_in_range ticker start_date end_date data_type kwargs w
  = (Err e, w') →
  ∃ tr, trace w' = (tr ++ [ELog ERROR ("Error fetching IBKR data: "
                                         ++ exn_str e)])%list.
Proof.
  unfold get_ibkr_data_in_range. bind_run.
  destruct (get_ibkr_connection_run w) as [conn ->].
  unfold with_self, try_except.
  match goal with
  | |- context [match ?b (conn, ?w1) with _ => _ end] =>
    destruct (b (conn, w1)) as [[a | e0] [c1 w1']]
  end.
  - intros [=].
  - rewrite m_bind_run, liftW_log_run. simpl. intros [= <- <-].
    by eexists.
Qed.

(** X9: [get_ibkr_data_in_range] changes neither the configuration
    nor the manager handle, and the connection handle afterwards holds
    the object [get_ibkr_connection] gave, up to its [connected]
    flag. *)
Theorem get_ibkr_data_in_range_frame
    ticker start_date end_date data_type kwargs (w : World) :
  let w' := (get_ibkr_data_in_range ticker start_date end_date data_type
               kwargs w).2 in
  config w' = config w
  ∧ _data_source_manager w' = _data_source_manager w
  ∧ ∃ conn c',
      get_ibkr_connection w = (Ok conn, set_ibkr_connection (Some conn) w)
      ∧ _ibkr_connection w' = Some c'
      ∧ same_settings conn c'.
Proof.
  destruct (get_ibkr_connection_run w) as [conn Hconn].
  assert (Hens : holds mtrace
                   (both (λ c, same_settings conn c)
                      (λ w0, frame_of w0 = frame_of w))
                   (λ _, True) ensure_connected).
  { by apply holds_ensure_connected. }
  destruct (get_ibkr_data_in_range_holds
              (λ c, same_settings conn c) (λ w0, frame_of w0 = frame_of w)
              (λ _, True)
              ltac:(done) ltac:(done) ltac:(done) ltac:(done) ltac:(done)
              ltac:(done) Hens ltac:(done)
              ticker start_date end_date data_type kwargs w conn Hconn
              eq_refl eq_refl)
    as (Hframe & (c' & Hc' & Hsame) & _).
  injection Hframe as Hcfg Hmgr. intros w'. split; [done |].
  split; [done |]. by exists conn, c'.
Qed.

(** X10: with a connected object in the handle,
    [get_ibkr_data_in_range] never calls [connectAsync] and leaves the
    very same object in the handle. *)
Theorem connected_stays_connected
    ticker start_date end_date data_type kwargs (w : World) c :
  _ibkr_connection w = Some c →
  connected c = true →
  let w' := (get_ibkr_data_in_range ticker start_date end_date data_type
               kwargs w).2 in
  _ibkr_connection w' = Some c
  ∧ ∃ evs, trace w' = (trace w ++ evs)%list
           ∧ Forall (λ ev, is_connect ev = false) evs.
Proof.
  intros Hc Hon.
  assert (Hconn : get_ibkr_connection w
                  = (Ok c, set_ibkr_connection (Some c) w)).
  { by rewrite (get_ibkr_connection_some w c Hc), world_eta_connection. }
  assert (Hens : holds mtrace (both (λ c', c' = c) (λ _, True))
                   (λ ev, is_connect ev = false) ensure_connected).
  { intros [c' w0] [Hc' _]. simpl in Hc'. subst c'.
    rewrite ensure_connected_run, Hon. split; [done |].
    exists []. by rewrite app_nil_r. }
  destruct (get_ibkr_data_in_range_holds
              (λ c', c' = c) (λ _, True) (λ ev, is_connect ev = false)
              ltac:(done) ltac:(done) ltac:(done) ltac:(done) ltac:(done)
              ltac:(done) Hens ltac:(done)
              ticker start_date end_date data_type kwargs w c Hconn
              eq_refl I)
    as (_ & (c' & Hc' & ->) & Hevs).
  done.
Qed.

(** X11: a news request whose start date does not parse, or whose
    end date does not after a start date that does, raises the error
    of [strptime] before any call to the gateway: the world changes by
    the handle and the ERROR record only. *)
Theorem unparseable_date_is_raised
    ticker start_date end_date kwargs (w : World) e :
  strptime_ymd start_date = Err e
  ∨ (∃ t, strptime_ymd start_date = Ok t ∧ strptime_ymd end_date = Err e) →
  ∃ conn,
    get_ibkr_connection w = (Ok conn, set_ibkr_connection (Some conn) w)
    ∧ get_ibkr_data_in_range ticker start_date end_date "news" kwargs w
      = (Err e, logged ERROR ("Error fetching IBKR data: " ++ exn_str e)
                  (set_ibkr_connection (Some conn) w)).
Proof.
  intros Hbad. destruct (get_ibkr_connection_run w) as [conn Hconn].
  exists conn. split; [done |].
  unfold get_ibkr_data_in_range. bind_run. rewrite Hconn.
  unfold with_self, try_except.
  change (String.eqb "news" "news") with true. cbv iota.
  bind_run. destruct Hbad as [-> | (t & -> & He)]; [done |].
  unfold of_res at 1. bind_run. by rewrite He.
Qed.

(** X12: when [util.df] gives [None] for the bars received (as it
    does for an empty list), the historical kind raises AttributeError
    on [df.empty]; with a connected object the history gets the bars
    request and the ERROR record, and nothing else changes. *)
Theorem no_frame_raises_attribute_error
    ticker start_date end_date kwargs (w : World) c bars x :
  _ibkr_connection w = Some c →
  connected c = true →
  ib (bars_request ticker kwargs) (ext w) = (Ok bars, x) →
  util_df bars = None →
  let e := AttributeError "'NoneType' object has no attribute 'empty'" in
  get_ibkr_data_in_range ticker start_date end_date "historical" kwargs w
  = (Err e, logged ERROR ("Error fetching IBKR data: " ++ exn_str e)
              (called (bars_request ticker kwargs) x w)).
Proof.
  intros Hc Hon Hbars Hdf e.
  unfold get_ibkr_data_in_range. bind_run.
  rewrite (get_ibkr_connection_some w c Hc).
  unfold with_self, try_except.
  change (String.eqb "historical" "news") with false.
  change (String.eqb "historical" "historical") with true. cbv iota.
  bind_run. unfold get_historical_data. bind_run.
  rewrite ensure_connected_run, Hon. bind_run.
  rewrite (liftW_call_ib_called (reqHistoricalDataAsync _ _ _ _ _ _ _)).
  unfold bars_request in Hbars. rewrite Hbars. simpl. rewrite Hdf. simpl.
  f_equal. apply world_eta_connection. done.
Qed.

(** X13: the news dict holds under a date exactly the articles of
    that date, in the order received, when the date is in the range and
    has an article, and it has no such key otherwise. *)
Theorem group_articles_lookup start_date end_date articles d :
  group_articles start_date end_date articles !! d
  = if in_range start_date end_date d && list_truthy (articles_on d articles)
    then Some (articles_on d articles)
    else None.
Proof.
  unfold group_articles. rewrite group_articles_fold, lookup_empty.
  destruct (in_range start_date end_date d); [| done].
  by destruct (articles_on d articles).
Qed.



(** X15: the keyword arguments are read by the historical kind only,
    and of them only duration, bar_size and what_to_show. *)
Theorem other_kwargs_are_ignored
    ticker start_date end_date data_type kwargs kwargs' (w : World) :
  data_type ≠ "historical"
  ∨ (kwargs !! "duration" = kwargs' !! "duration"
     ∧ kwargs !! "bar_size" = kwargs' !! "bar_size"
     ∧ kwargs !! "what_to_show" = kwargs' !! "what_to_show") →
  get_ibkr_data_in_range ticker start_date end_date data_type kwargs w
  = get_ibkr_data_in_range ticker start_date end_date data_type kwargs' w.
Proof.
  intros Hk. unfold get_ibkr_data_in_range.
  destruct (String.eqb data_type "news") eqn:E1; [done |].
  destruct (String.eqb data_type "historical") eqn:E2; [| done].
  destruct Hk as [Hne | (-> & -> & ->)]; [| done].
  by apply String.eqb_eq in E2.
Qed.

(** X16: outside the kinds news and historical the start date is
    never read. *)
Theorem start_date_is_ignored_outside_ranges
    ticker start_date start_date' end_date data_type kwargs (w : World) :
  data_type ≠ "news" → data_type ≠ "historical" →
  get_ibkr_data_in_range ticker start_date end_date data_type kwargs w
  = get_ibkr_data_in_range ticker start_date' end_date data_type kwargs w.
Proof.
  intros H1%String.eqb_neq H2%String.eqb_neq.
  unfold get_ibkr_data_in_range. by rewrite H1, H2.
Qed.

Lemma set_connected_same c : set_connected (connected c) c = c.
Proof. by destruct c. Qed.

(** X17: a ticker for which the gateway has no contract details gives
    the empty dict, for company_info and (with dates that parse) for
    news, after that one call and with no record. *)
Theorem unknown_ticker_gives_empty
    ticker start_date end_date kwargs (w : World) c x :
  _ibkr_connection w = Some c →
  connected c = true →
  let q := reqContractDetailsAsync (get_contract ticker "SMART") in
  ib q (ext w) = (Ok [], x) →
  get_ibkr_data_in_range ticker start_date end_date "company_info" kwargs w
  = (Ok ∅, called q x w)
  ∧ (∀ t1 t2,
       strptime_ymd start_date = Ok t1 → strptime_ymd end_date = Ok t2 →
       get_ibkr_data_in_range ticker start_date end_date "news" kwargs w
       = (Ok ∅, called q x w)).
Proof.
  intros Hc Hon q Hd. subst q. split.
  - unfold get_ibkr_data_in_range. bind_run.
    rewrite (get_ibkr_connection_some w c Hc).
    unfold with_self, try_except.
    change (String.eqb "company_info" "news") with false.
    change (String.eqb "company_info" "historical") with false.
    change (String.eqb "company_info" "fundamentals") with false.
    change (String.eqb "company_info" "company_info") with true. cbv iota.
    bind_run. unfold get_company_info. bind_run.
    rewrite ensure_connected_run, Hon. bind_run.
    rewrite (liftW_call_ib_called (reqContractDetailsAsync _)), Hd. simpl.
    f_equal. by apply world_eta_connection.
  - intros t1 t2 H1 H2. unfold get_ibkr_data_in_range. bind_run.
    rewrite (get_ibkr_connection_some w c Hc).
    unfold with_self, try_except.
    change (String.eqb "news" "news") with true. cbv iota.
    bind_run. rewrite H1. unfold of_res at 1.
    bind_run. rewrite H2. unfold of_res at 1.
    bind_run. unfold get_news_articles. bind_run.
    rewrite ensure_connected_run, Hon. bind_run.
    rewrite (liftW_call_ib_called (reqContractDetailsAsync _)), Hd. simpl.
    f_equal. by apply world_eta_connection.
Qed.

(** X18: with an unconnected object in the handle and the gateway
    refusing the connection, a request of the kinds historical,
    fundamentals, company_info and real_time raises the exception of
    [connectAsync]; the history gets the connection call, the ERROR
    record of [connect] and the ERROR record of
    [get_ibkr_data_in_range], and nothing else changes. *)
Theorem unreachable_gateway_is_raised
    ticker start_date end_date data_type kwargs (w : World) c e x :
  _ibkr_connection w = Some c →
  connected c = false →
  ib (connect_request c) (ext w) = (Err e, x) →
  data_type ∈ undated_kinds →
  get_ibkr_data_in_range ticker start_date end_date data_type kwargs w
  = (Err e, logged ERROR ("Error fetching IBKR data: " ++ exn_str e)
              (connect_failed c e x w)).
Proof.
  intros Hc Hoff He Hk. unfold get_ibkr_data_in_range. bind_run.
  rewrite (get_ibkr_connection_some w c Hc).
  unfold with_self, try_except.
  assert (Hfinal : ∀ w0 : World, _ibkr_connection w0 = Some c →
            set_ibkr_connection (Some (set_connected false c)) w0 = w0).
  { intros w0 E. rewrite <- Hoff, set_connected_same.
    by apply world_eta_connection. }
  unfold undated_kinds in Hk. rewrite !elem_of_cons, elem_of_nil in Hk.
  destruct Hk as [-> | [-> | [-> | [-> | []]]]]; simpl;
    bind_run;
    [ unfold get_historical_data | unfold get_fundamentals
    | unfold get_company_info | unfold get_real_time_data ];
    rewrite (connect_first_fails _ c w e x Hoff He);
    bind_run; rewrite liftW_log_run; simpl; f_equal; by apply Hfinal.
Qed.

(** X19: [cleanup_ibkr_connection] swallows what [asyncio.run] or
    [disconnect] raises: it records a WARNING with the text of the
    exception, unsets the handle and returns. *)
Theorem cleanup_failures_are_logged (w : World) c :
  _ibkr_connection w = Some c →
  (∀ e x, asyncio_run_enter (ext w) = (Err e, x) →
     cleanup_ibkr_connection w
     = (Ok tt, set_ibkr_connection None
                 (logged WARNING ("Error during IBKR cleanup: " ++ exn_str e)
                    (set_ext x w))))
  ∧ (∀ e x1 x2, connected c = true →
       asyncio_run_enter (ext w) = (Ok tt, x1) →
       ib disconnect_ib x1 = (Err e, x2) →
       cleanup_ibkr_connection w
       = (Ok tt, set_ibkr_connection None
                   (logged WARNING ("Error during IBKR cleanup: "
                                      ++ exn_str e)
                      (called disconnect_ib x2 w)))).
Proof.
  intros Hc. split.
  - intros e x He. unfold cleanup_ibkr_connection. bind_run. simpl.
    rewrite Hc. bind_run. unfold try_except, asyncio_run. bind_run.
    unfold outside at 1. by rewrite He.
  - intros e x1 x2 Hon He Hd. unfold cleanup_ibkr_connection. bind_run. simpl.
    rewrite Hc. bind_run. unfold try_except, asyncio_run. bind_run.
    unfold outside at 1. rewrite He. unfold with_self.
    rewrite disconnect_run, Hon. simpl. by rewrite Hd.
Qed.

(** *** data_source_manager *)

Lemma cleanup_data_sources_config (w : World) :
  config (cleanup_data_sources w).2 = config w
  ∧ _data_source_manager (cleanup_data_sources w).2 = None.
Proof.
  destruct (cleanup_data_sources w) as [r w'] eqn:Hrun. revert Hrun.
  unfold cleanup_data_sources. bind_run. simpl.
  destruct (_data_source_manager w) as [m |] eqn:E; [| by intros [= <- <-]].
  bind_run. unfold cleanup, try_except.
  destruct (cleanup_ibkr_connection_config w) as [Hcfg _].
  destruct (cleanup_ibkr_connection_run w) as [w1 Hrun]. rewrite Hrun in *.
  by intros [= <- <-].
Qed.

(** X20: [get_data_source_manager] returns the manager of the handle
    unchanged; with the handle unset it builds one from the
    configuration (data_source, by default finnhub; enable_fallback, by
    default True), and so it does after [cleanup_data_sources]. *)
Theorem manager_is_kept_until_cleanup (w : World) :
  (∀ m, _data_source_manager w = Some m →
        get_data_source_manager w = (Ok m, w))
  ∧ (_data_source_manager w = None →
     get_data_source_manager w
     = (Ok (fresh_manager (config w)),
        set_data_source_manager (Some (fresh_manager (config w))) w))
  ∧ let w1 := (cleanup_data_sources w).2 in
    get_data_source_manager w1
    = (Ok (fresh_manager (config w)),
       set_data_source_manager (Some (fresh_manager (config w))) w1).
Proof.
  assert (Hnone : ∀ w0 : World, _data_source_manager w0 = None →
            get_data_source_manager w0
            = (Ok (fresh_manager (config w0)),
               set_data_source_manager (Some (fresh_manager (config w0))) w0)).
  { intros w0 E. unfold get_data_source_manager. bind_run. simpl.
    by rewrite E. }
  split; [| split; [apply Hnone |]].
  - intros m E. unfold get_data_source_manager. bind_run. simpl.
    by rewrite E.
  - intros w1. destruct (cleanup_data_sources_config w) as [Hcfg Hm].
    fold w1 in Hcfg, Hm. by rewrite (Hnone w1 Hm), Hcfg.
Qed.

(** X21: [DataSourceManager.cleanup] is [cleanup_ibkr_connection]:
    its own handler never runs, since the callee raises nothing. *)
Theorem cleanup_is_cleanup_ibkr_connection self (w : World) :
  cleanup self w = cleanup_ibkr_connection w.
Proof.
  unfold cleanup, try_except.
  by destruct (cleanup_ibkr_connection_run w) as [w1 ->].
Qed.

Section OtherRequests.
Variable self : DataSourceManager.
Variables ticker start_date end_date data_type : string.
Variables data_dir period : option string.
Variable kwargs : gmap string Any.

Local Abbreviation fetch_by src :=
  (fetch src ticker start_date end_date data_type data_dir period kwargs).
Local Abbreviation get_data_in_range' :=
  (get_data_in_range self ticker start_date end_date data_type data_dir
     period kwargs).
Local Abbreviation run_lemma :=
  (get_data_in_range_run self ticker start_date end_date data_type data_dir
     period kwargs).

(** X22: an exception raised by [get_data_in_range] is always the one
    the primary fetch raised, never the one of the fallback. *)
Theorem only_the_primary_error_is_raised (w : World) e w' :
  get_data_in_range' w = (Err e, w') →
  ∃ w1, fetch_by (primary self) w = (Err e, w1).
Proof.
  rewrite run_lemma.
  destruct (fetch_by (primary self) w) as [[d | e1] w1].
  - destruct (dict_truthy d); [by intros [=] |].
    destruct (enable_fallback self); [| by intros [=]].
    unfold fallback_run.
    destruct (fetch_by (secondary self) _) as [[d2 | e2] w2];
      [destruct (dict_truthy d2) |]; by intros [=].
  - cbv zeta. destruct (enable_fallback self).
    + unfold fallback_run.
      destruct (fetch_by (secondary self) _) as [[d2 | e2] w2];
        [destruct (dict_truthy d2) |]; intros [= <- _]; by eexists.
    + intros [= <- _]. by eexists.
Qed.

(** X23: with fallback disabled an empty primary result is returned
    as it is, with no record and no further fetch. *)
Theorem empty_primary_without_fallback (w : World) w1 :
  enable_fallback self = false →
  fetch_by (primary self) w = (Ok ∅, w1) →
  get_data_in_range' w = (Ok ∅, w1).
Proof.
  intros Hfb Hp. by rewrite run_lemma, Hp, dict_truthy_empty, Hfb.
Qed.

(** X24: when the primary fetch raises and the fallback returns an
    empty result, the primary exception is raised, with no further
    record. *)
Theorem primary_error_and_empty_fallback (w : World) e1 w1 w2 :
  enable_fallback self = true →
  fetch_by (primary self) w = (Err e1, w1) →
  fetch_by (secondary self)
    (logged INFO ("Attempting fallback to " ++ fallback_source self)
       (logged WARNING ("Failed to fetch data from " ++ primary_source self
                          ++ ": " ++ exn_str e1) w1))
  = (Ok ∅, w2) →
  get_data_in_range' w = (Err e1, w2).
Proof.
  intros Hfb Hp Hs. rewrite run_lemma, Hp, Hfb. cbv zeta.
  unfold fallback_run. by rewrite Hs, dict_truthy_empty.
Qed.

(** X25: when the primary fetch returns an empty result and the
    fallback returns data, the data is returned after the INFO record
    of the success. *)
Theorem empty_primary_and_fallback_data (w : World) w1 d w2 :
  enable_fallback self = true →
  fetch_by (primary self) w = (Ok ∅, w1) →
  fetch_by (secondary self)
    (logged INFO ("Attempting fallback to " ++ fallback_source self) w1)
  = (Ok d, w2) →
  d ≠ ∅ →
  get_data_in_range' w
  = (Ok d, logged INFO ("Successfully fetched data from fallback source: "
                          ++ fallback_source self) w2).
Proof.
  intros Hfb Hp Hs Hd. rewrite run_lemma, Hp, dict_truthy_empty, Hfb.
  unfold fallback_run. by rewrite Hs, (dict_truthy_true d Hd).
Qed.

Lemma fallback_run_trace perr (w : World) :
  ∃ evs, trace (fallback_run self ticker start_date end_date data_type
                  data_dir period kwargs perr w).2
         = (trace w ++ evs)%list.
Proof.
  unfold fallback_run.
  destruct (fetch_trace ticker start_date end_date data_type data_dir period
              kwargs (secondary self)
              (logged INFO ("Attempting fallback to " ++ fallback_source self)
                 w)) as (evs & E & _).
  destruct (fetch_by (secondary self) _) as [[d | e] w'].
  - destruct (dict_truthy d).
    + eexists. simpl in *. rewrite E. by rewrite <- !app_assoc.
    + destruct perr; eexists; simpl in *; rewrite E; by rewrite <- !app_assoc.
  - destruct perr; eexists; simpl in *; rewrite E; by rewrite <- !app_assoc.
Qed.

(** X26: a manager whose primary source is anything but ibkr (an
    unknown name included) starts with a fetch from Finnhub. *)
Theorem other_sources_mean_finnhub (w : World) :
  primary_source self ≠ "ibkr" →
  ∃ evs,
    trace (get_data_in_range' w).2
    = (trace w ++ EFetch (FinnhubCall ticker start_date end_date data_type
                            data_dir period) :: evs)%list.
Proof.
  intros Hne%String.eqb_neq.
  assert (Hp : primary self = Finnhub) by (unfold primary; by rewrite Hne).
  rewrite run_lemma, Hp.
  destruct (fetch_trace ticker start_date end_date data_type data_dir period
              kwargs Finnhub w) as (evs & E & _).
  destruct (fetch_by Finnhub w) as [[d | e] w1]; simpl in E.
  - destruct (dict_truthy d).
    + eexists. simpl. rewrite E. by rewrite <- app_assoc.
    + destruct (enable_fallback self); [| by eexists].
      destruct (fallback_run_trace None w1) as [evs' ->].
      eexists. rewrite E. by rewrite <- app_assoc.
  - cbv zeta. destruct (enable_fallback self).
    + destruct (fallback_run_trace (Some e)
                  (logged WARNING ("Failed to fetch data from "
                     ++ primary_source self ++ ": " ++ exn_str e) w1))
        as [evs' ->].
      eexists. simpl. rewrite E. by rewrite <- !app_assoc.
    + eexists. simpl. rewrite E. by rewrite <- app_assoc.
Qed.

End OtherRequests.

End Methods.

(** ** The further properties on the scripted outside *)

Section MethodWitnesses.
Import Scripted Scenario Connections.

Local Abbreviation run_request fallback w :=
  (get_data_in_range (manager fallback) "AAPL" "2024-01-01" "2024-01-05"
     "news" None None ∅ w).
Local Abbreviation run_fetch src w :=
  (fetch src "AAPL" "2024-01-01" "2024-01-05" "news" None None ∅ w).
Local Abbreviation run_ibkr kind w :=
  (get_ibkr_data_in_range "AAPL" "2024-01-01" "2024-01-05" kind ∅ w).

Ltac by_outcome :=
  lazymatch goal with
  | |- ?r = (?a, _) => refine (run_eq r a _); vm_compute; reflexivity
  end.

(** The gateway is down: [get_fundamentals] on the unconnected object
    raises the refusal. *)
Lemma connection_failure_witness :
  let c := offline in
  let w := world_at false jan5_noon (Ok ∅) true in
  connected c = false
  ∧ ib (connect_request c) (ext w) = (Err ConnectionRefusedError, ext w)
  ∧ get_fundamentals "AAPL" (c, w)
    = refused c ConnectionRefusedError (ext w) w.
Proof.
  intros c w.
  assert (H1 : connected c = false) by reflexivity.
  assert (H2 : ib (connect_request c) (ext w)
               = (Err ConnectionRefusedError, ext w)) by reflexivity.
  destruct (connection_failure_is_raised "AAPL" c w ConnectionRefusedError
              (ext w) H1 H2) as (_ & _ & _ & Hf & _).
  exact (conj H1 (conj H2 Hf)).
Defined.

(** A gateway with a report, and one without: the report comes back
    under its key, and the refusal becomes a WARNING and an empty
    dict. *)
Lemma get_fundamentals_witness :
  let w := world_with online with_report in
  let w' := world_with online (outside_at true jan5_noon (Ok ∅)) in
  let q := report_request "AAPL" in
  let e := mkExn "RequestError" "fundamentals not available" in
  connected online = true
  ∧ ib q (ext w) = (Ok (AStr "<ReportSnapshot/>"), ext w)
  ∧ get_fundamentals "AAPL" (online, w)
    = (Ok [("fundamentals", AStr "<ReportSnapshot/>")],
       (online, called q (ext w) w))
  ∧ ib q (ext w') = (Err e, ext w')
  ∧ get_fundamentals "AAPL" (online, w')
    = (Ok [],
       (online,
        logged WARNING
          "Failed to get fundamentals for AAPL: fundamentals not available"
          (called q (ext w') w'))).
Proof.
  intros w w' q e.
  assert (H1 : connected online = true) by reflexivity.
  assert (H2 : ib q (ext w) = (Ok (AStr "<ReportSnapshot/>"), ext w))
    by reflexivity.
  assert (H3 : ib q (ext w') = (Err e, ext w')) by reflexivity.
  exact (conj H1 (conj H2
    (conj (get_fundamentals_swallows_request_errors "AAPL" online w
             (Ok (AStr "<ReportSnapshot/>")) (ext w) H1 H2)
       (conj H3
          (get_fundamentals_swallows_request_errors "AAPL" online w'
             (Err e) (ext w') H1 H3))))).
Defined.

(** The gateway is up and knows the contract: [get_news_articles]
    returns. *)
Lemma get_news_articles_witness :
  let w := world_with online (outside_at true jan5_noon (Ok ∅)) in
  let q := reqContractDetailsAsync (get_contract "AAPL" "SMART") in
  connected online = true
  ∧ ib q (ext w) = (Ok [aapl_details], ext w)
  ∧ (∃ articles w',
       get_news_articles "AAPL" 4 (online, w) = (Ok articles, (online, w')))
  ∧ ([aapl_details] = [] →
     get_news_articles "AAPL" 4 (online, w)
     = (Ok [], (online, called q (ext w) w))).
Proof.
  intros w q.
  assert (H2 : ib q (ext w) = (Ok [aapl_details], ext w)) by reflexivity.
  exact (conj eq_refl (conj H2
    (get_news_articles_raises_only_early "AAPL" 4 online w [aapl_details]
       (ext w) eq_refl H2))).
Defined.

(** The gateway is down: the news request raises, and the ERROR record
    is the last. *)
Lemma ibkr_errors_witness :
  let w := world_at false jan5_noon (Ok ∅) true in
  run_ibkr "news" w = (Err ConnectionRefusedError, (run_ibkr "news" w).2)
  ∧ ∃ tr, trace (run_ibkr "news" w).2
          = (tr ++ [ELog ERROR ("Error fetching IBKR data: "
                                  ++ exn_str ConnectionRefusedError)])%list.
Proof.
  intros w.
  assert (H1 : run_ibkr "news" w
               = (Err ConnectionRefusedError, (run_ibkr "news" w).2))
    by by_outcome.
  exact (conj H1
    (ibkr_errors_are_logged "AAPL" "2024-01-01" "2024-01-05" "news" ∅ w
       ConnectionRefusedError (run_ibkr "news" w).2 H1)).
Defined.

(** A connected object in the handle: the news request does not connect
    again. *)
Lemma connected_stays_witness :
  let w := world_with online (outside_at true jan5_noon (Ok ∅)) in
  _ibkr_connection w = Some online
  ∧ connected online = true
  ∧ _ibkr_connection (run_ibkr "news" w).2 = Some online
  ∧ ∃ evs, trace (run_ibkr "news" w).2 = (trace w ++ evs)%list
           ∧ Forall (λ ev, is_connect ev = false) evs.
Proof.
  intros w.
  exact (conj eq_refl (conj eq_refl
    (connected_stays_connected "AAPL" "2024-01-01" "2024-01-05" "news" ∅ w
       online eq_refl eq_refl))).
Defined.

(** A start date written with slashes. *)
Lemma unparseable_date_witness :
  let w := world_at true jan5_noon (Ok ∅) true in
  let e := ValueError
             "time data '01/01/2024' does not match format '%Y-%m-%d'" in
  (strptime_ymd "01/01/2024" = Err e
   ∨ (∃ t, strptime_ymd "01/01/2024" = Ok t
           ∧ strptime_ymd "2024-01-05" = Err e))
  ∧ ∃ conn,
      get_ibkr_connection w = (Ok conn, set_ibkr_connection (Some conn) w)
      ∧ get_ibkr_data_in_range "AAPL" "01/01/2024" "2024-01-05" "news" ∅ w
        = (Err e, logged ERROR ("Error fetching IBKR data: " ++ exn_str e)
                    (set_ibkr_connection (Some conn) w)).
Proof.
  intros w e.
  assert (H1 : strptime_ymd "01/01/2024" = Err e
               ∨ (∃ t, strptime_ymd "01/01/2024" = Ok t
                       ∧ strptime_ymd "2024-01-05" = Err e))
    by (left; vm_compute; reflexivity).
  exact (conj H1
    (unparseable_date_is_raised "AAPL" "01/01/2024" "2024-01-05" ∅ w e H1)).
Defined.

(** The gateway has no bars: [util.df] gives [None]. *)
Lemma no_frame_witness :
  let w := world_with online (outside_at true jan5_noon (Ok ∅)) in
  let e := AttributeError "'NoneType' object has no attribute 'empty'" in
  _ibkr_connection w = Some online
  ∧ connected online = true
  ∧ ib (bars_request "AAPL" ∅) (ext w) = (Ok [], ext w)
  ∧ util_df [] = None
  ∧ run_ibkr "historical" w
    = (Err e, logged ERROR ("Error fetching IBKR data: " ++ exn_str e)
                (called (bars_request "AAPL" ∅) (ext w) w)).
Proof.
  intros w e.
  assert (H3 : ib (bars_request "AAPL" ∅) (ext w) = (Ok [], ext w))
    by reflexivity.
  exact (conj eq_refl (conj eq_refl (conj H3 (conj eq_refl
    (no_frame_raises_attribute_error "AAPL" "2024-01-01" "2024-01-05" ∅ w
       online [] (ext w) eq_refl eq_refl H3 eq_refl))))).
Defined.

(** A keyword argument that no kind reads. *)
Lemma other_kwargs_witness :
  let w := world_at true jan5_noon (Ok ∅) true in
  let kwargs' : gmap string Any := {[ "verbose" := ABool true ]} in
  ("news" ≠ "historical"
   ∨ ((∅ : gmap string Any) !! "duration" = kwargs' !! "duration"
      ∧ (∅ : gmap string Any) !! "bar_size" = kwargs' !! "bar_size"
      ∧ (∅ : gmap string Any) !! "what_to_show" = kwargs' !! "what_to_show"))
  ∧ get_ibkr_data_in_range "AAPL" "2024-01-01" "2024-01-05" "news" ∅ w
    = get_ibkr_data_in_range "AAPL" "2024-01-01" "2024-01-05" "news" kwargs' w.
Proof.
  intros w kwargs'.
  assert (H1 : "news" ≠ "historical"
               ∨ ((∅ : gmap string Any) !! "duration" = kwargs' !! "duration"
                  ∧ (∅ : gmap string Any) !! "bar_size" = kwargs' !! "bar_size"
                  ∧ (∅ : gmap string Any) !! "what_to_show"
                    = kwargs' !! "what_to_show"))
    by (left; discriminate).
  exact (conj H1
    (other_kwargs_are_ignored "AAPL" "2024-01-01" "2024-01-05" "news" ∅
       kwargs' w H1)).
Defined.

(** Fundamentals with two start dates. *)
Lemma start_date_witness :
  let w := world_at true jan5_noon (Ok ∅) true in
  "fundamentals" ≠ "news"
  ∧ "fundamentals" ≠ "historical"
  ∧ get_ibkr_data_in_range "AAPL" "2024-01-01" "2024-01-05" "fundamentals" ∅ w
    = get_ibkr_data_in_range "AAPL" "1999-12-31" "2024-01-05" "fundamentals"
        ∅ w.
Proof.
  intros w.
  assert (H1 : "fundamentals" ≠ "news") by discriminate.
  assert (H2 : "fundamentals" ≠ "historical") by discriminate.
  exact (conj H1 (conj H2
    (start_date_is_ignored_outside_ranges "AAPL" "2024-01-01" "1999-12-31"
       "2024-01-05" "fundamentals" ∅ w H1 H2))).
Defined.

(** A gateway that knows no contract. *)
Lemma unknown_ticker_witness :
  let w := world_with online no_contract in
  let q := reqContractDetailsAsync (get_contract "ZZZZ" "SMART") in
  _ibkr_connection w = Some online
  ∧ connected online = true
  ∧ ib q (ext w) = (Ok [], ext w)
  ∧ get_ibkr_data_in_range "ZZZZ" "2024-01-01" "2024-01-05" "company_info" ∅ w
    = (Ok ∅, called q (ext w) w).
Proof.
  intros w q.
  assert (H3 : ib q (ext w) = (Ok [], ext w)) by reflexivity.
  destruct (unknown_ticker_gives_empty "ZZZZ" "2024-01-01" "2024-01-05" ∅ w
              online (ext w) eq_refl eq_refl H3) as [Hinfo _].
  exact (conj eq_refl (conj eq_refl (conj H3 Hinfo))).
Defined.

(** The gateway is down when fundamentals are asked for. *)
Lemma unreachable_gateway_witness :
  let w := world_with offline (outside_at false jan5_noon (Ok ∅)) in
  _ibkr_connection w = Some offline
  ∧ connected offline = false
  ∧ ib (connect_request offline) (ext w) = (Err ConnectionRefusedError, ext w)
  ∧ "fundamentals" ∈ undated_kinds
  ∧ run_ibkr "fundamentals" w
    = (Err ConnectionRefusedError,
       logged ERROR ("Error fetching IBKR data: "
                       ++ exn_str ConnectionRefusedError)
         (connect_failed offline ConnectionRefusedError (ext w) w)).
Proof.
  intros w.
  assert (H3 : ib (connect_request offline) (ext w)
               = (Err ConnectionRefusedError, ext w)) by reflexivity.
  assert (H4 : "fundamentals" ∈ undated_kinds).
  { apply (bool_decide_unpack _). vm_compute. exact I. }
  exact (conj eq_refl (conj eq_refl (conj H3 (conj H4
    (unreachable_gateway_is_raised "AAPL" "2024-01-01" "2024-01-05"
       "fundamentals" ∅ w offline ConnectionRefusedError (ext w)
       eq_refl eq_refl H3 H4))))).
Defined.

(** Cleanup from inside a running event loop: [asyncio.run] refuses. *)
Lemma cleanup_failure_witness :
  let w := world_with online in_loop in
  let e := mkExn "RuntimeError"
             "asyncio.run() cannot be called from a running event loop" in
  _ibkr_connection w = Some online
  ∧ asyncio_run_enter (ext w) = (Err e, ext w)
  ∧ cleanup_ibkr_connection w
    = (Ok tt, set_ibkr_connection None
                (logged WARNING ("Error during IBKR cleanup: " ++ exn_str e)
                   (set_ext (ext w) w))).
Proof.
  intros w e.
  assert (H2 : asyncio_run_enter (ext w) = (Err e, ext w)) by reflexivity.
  destruct (cleanup_failures_are_logged w online eq_refl) as [Hloop _].
  exact (conj eq_refl (conj H2 (Hloop e (ext w) H2))).
Defined.

(** Both providers fail: the exception raised is the gateway refusal of
    the primary. *)
Lemma only_primary_error_witness :
  let w := world_at false jan5_noon (Err FileNotFoundError) true in
  run_request true w = (Err ConnectionRefusedError, (run_request true w).2)
  ∧ ∃ w1, run_fetch (primary (manager true)) w
          = (Err ConnectionRefusedError, w1).
Proof.
  intros w.
  assert (H1 : run_request true w
               = (Err ConnectionRefusedError, (run_request true w).2))
    by by_outcome.
  exact (conj H1
    (only_the_primary_error_is_raised (manager true) "AAPL" "2024-01-01"
       "2024-01-05" "news" None None ∅ w ConnectionRefusedError
       (run_request true w).2 H1)).
Defined.

(** In June the gateway has nothing in the week, and fallback is
    disabled. *)
Lemma empty_without_fallback_witness :
  let w := world_at true jun1_noon (Ok cached_news) false in
  let w1 := (run_fetch (primary (manager false)) w).2 in
  enable_fallback (manager false) = false
  ∧ run_fetch (primary (manager false)) w = (Ok ∅, w1)
  ∧ run_request false w = (Ok ∅, w1).
Proof.
  intros w w1.
  assert (H2 : run_fetch (primary (manager false)) w = (Ok ∅, w1))
    by by_outcome.
  exact (conj eq_refl (conj H2
    (empty_primary_without_fallback (manager false) "AAPL" "2024-01-01"
       "2024-01-05" "news" None None ∅ w w1 eq_refl H2))).
Defined.

(** The gateway is down and Finnhub has an empty file. *)
Lemma error_and_empty_fallback_witness :
  let w := world_at false jan5_noon (Ok ∅) true in
  let w1 := (run_fetch (primary (manager true)) w).2 in
  let w1' := logged INFO ("Attempting fallback to "
                            ++ fallback_source (manager true))
               (logged WARNING
                  ("Failed to fetch data from " ++ primary_source (manager true)
                     ++ ": " ++ exn_str ConnectionRefusedError) w1) in
  let w2 := (run_fetch (secondary (manager true)) w1').2 in
  enable_fallback (manager true) = true
  ∧ run_fetch (primary (manager true)) w = (Err ConnectionRefusedError, w1)
  ∧ run_fetch (secondary (manager true)) w1' = (Ok ∅, w2)
  ∧ run_request true w = (Err ConnectionRefusedError, w2).
Proof.
  intros w w1 w1' w2.
  assert (H2 : run_fetch (primary (manager true)) w
               = (Err ConnectionRefusedError, w1)) by by_outcome.
  assert (H3 : run_fetch (secondary (manager true)) w1' = (Ok ∅, w2))
    by by_outcome.
  exact (conj eq_refl (conj H2 (conj H3
    (primary_error_and_empty_fallback (manager true) "AAPL" "2024-01-01"
       "2024-01-05" "news" None None ∅ w ConnectionRefusedError w1 w2
       eq_refl H2 H3)))).
Defined.

(** In June the gateway has nothing in the week; Finnhub has the cached
    news. *)
Lemma empty_and_fallback_data_witness :
  let w := world_at true jun1_noon (Ok cached_news) true in
  let w1 := (run_fetch (primary (manager true)) w).2 in
  let w1' := logged INFO ("Attempting fallback to "
                            ++ fallback_source (manager true)) w1 in
  let w2 := (run_fetch (secondary (manager true)) w1').2 in
  enable_fallback (manager true) = true
  ∧ run_fetch (primary (manager true)) w = (Ok ∅, w1)
  ∧ run_fetch (secondary (manager true)) w1' = (Ok cached_news, w2)
  ∧ cached_news ≠ ∅
  ∧ run_request true w
    = (Ok cached_news,
       logged INFO ("Successfully fetched data from fallback source: "
                      ++ fallback_source (manager true)) w2).
Proof.
  intros w w1 w1' w2.
  assert (H2 : run_fetch (primary (manager true)) w = (Ok ∅, w1))
    by by_outcome.
  assert (H3 : run_fetch (secondary (manager true)) w1' = (Ok cached_news, w2))
    by by_outcome.
  assert (H4 : cached_news ≠ ∅) by done.
  exact (conj eq_refl (conj H2 (conj H3 (conj H4
    (empty_primary_and_fallback_data (manager true) "AAPL" "2024-01-01"
       "2024-01-05" "news" None None ∅ w w1 cached_news w2
       eq_refl H2 H3 H4))))).
Defined.

(** A manager configured with the source yahoo. *)
Lemma other_sources_witness :
  let w := world_at true jan5_noon (Ok cached_news) true in
  primary_source manager_yahoo ≠ "ibkr"
  ∧ ∃ evs,
      trace (get_data_in_range manager_yahoo "AAPL" "2024-01-01" "2024-01-05"
               "news" None None ∅ w).2
      = (trace w ++ EFetch (FinnhubCall "AAPL" "2024-01-01" "2024-01-05"
                              "news" None None) :: evs)%list.
Proof.
  intros w.
  assert (H1 : primary_source manager_yahoo ≠ "ibkr") by discriminate.
  exact (conj H1
    (other_sources_mean_finnhub manager_yahoo "AAPL" "2024-01-01"
       "2024-01-05" "news" None None ∅ w H1)).
Defined.

End MethodWitnesses.
